(** * Configuration service and secret coordination of [app/config.go]

    A shallow embedding of the Go file [app/config.go] of the Mattermost
    server: the configuration wrapper ([UpdateConfig], [SaveConfig]), the
    two "ensure" operations that materialise the cluster-wide secrets,
    the client-config projection and [HandleMessageExportConfig].

    Conventions of the embedding.
    - A Go function that mutates the server is a function on [World] in the
      monad [M]; [Done] is a normal return, [Fail e] is [return err] of a
      function whose only result is an [error], and [Panic] is a run-time
      panic (a nil dereference).
    - A Go pointer that may be nil is an [option].  The settings of a
      configuration document are held by value: the active document is always
      fully populated (defaults are applied before a document is installed).
    - Every call that leaves [config.go] (stores, cluster, metrics, logging,
      randomness) appends an [Event] to the trace of the world, so that "is
      not called" and "is called with" are statements about the trace. *)

From Stdlib Require Import ZArith String Ascii List DecimalString.
From stdpp Require Import base gmap strings list.
Import ListNotations.

Local Open Scope string_scope.
Local Open Scope list_scope.
Local Open Scope Z_scope.

(** ** Errors *)

(** Go [error] values.  [ErrReadOnlyConfiguration] is the sentinel declared by
    package [config]; Go compares errors by identity, so the sentinel differs
    from every error built from a message.  [withMessage] is a wrapped error
    of [github.com/pkg/errors]. *)
Inductive error : Type :=
| ErrReadOnlyConfiguration
| errorString (msg : string)
| withMessage (msg : string) (cause : error).

(** [errors.Cause]: unwraps to the innermost error. *)
Fixpoint Cause (e : error) : error :=
  match e with
  | withMessage _ c => Cause c
  | _ => e
  end.

(** [err.Error()]. *)
Fixpoint Error (e : error) : string :=
  match e with
  | ErrReadOnlyConfiguration => "configuration is read-only"
  | errorString m => m
  | withMessage m c => m +:+ ": " +:+ Error c
  end.

(** [errors.Cause(err) == config.ErrReadOnlyConfiguration], for [err] that may
    be nil. *)
Definition causeIsReadOnly (err : option error) : bool :=
  match err with
  | Some e => match Cause e with ErrReadOnlyConfiguration => true | _ => false end
  | None => false
  end.

Definition StatusForbidden : Z := 403.
Definition StatusInternalServerError : Z := 500.

(** [model.AppError], with the fields [model.NewAppError] fills from its
    arguments. *)
Record AppError : Type := mkAppError {
  Where : string;
  Id : string;
  DetailedError : string;
  StatusCode : Z
}.

Definition NewAppError (where_ id details : string) (status : Z) : AppError :=
  {| Where := where_; Id := id; DetailedError := details; StatusCode := status |}.

(** ** The configuration document *)

Record ServiceSettings : Type := mkServiceSettings {
  SiteURL : string;
  AllowCookiesForSubdomains : bool
}.

Record MetricsSettings : Type := mkMetricsSettings {
  Enable : bool
}.

Record MessageExportSettings : Type := mkMessageExportSettings {
  EnableExport : bool;
  ExportFromTimestamp : Z
}.

(** [model.Config].  The groups [config.go] reads are spelled out; every other
    setting of the document is kept, by its path, in [OtherSettings]. *)
Record Config : Type := mkConfig {
  cfgServiceSettings : ServiceSettings;
  cfgMetricsSettings : MetricsSettings;
  cfgMessageExportSettings : MessageExportSettings;
  OtherSettings : gmap string string
}.

(** [cfg.Clone()]: a deep copy; documents are values here. *)
Definition Clone (cfg : Config) : Config := cfg.

(** The assignment [cfg.MessageExportSettings.ExportFromTimestamp = model.NewInt64(t)]. *)
Definition setExportFromTimestamp (t : Z) (cfg : Config) : Config :=
  {| cfgServiceSettings := cfgServiceSettings cfg;
     cfgMetricsSettings := cfgMetricsSettings cfg;
     cfgMessageExportSettings :=
       {| EnableExport := EnableExport (cfgMessageExportSettings cfg);
          ExportFromTimestamp := t |};
     OtherSettings := OtherSettings cfg |}.

(** [HandleMessageExportConfig(cfg, appCfg)]: [cfg] is the submitted document,
    [appCfg] the active one; [now] is what [model.GetMillis()] returns.  The Go
    function rewrites [cfg] in place; the result is [cfg] after the call. *)
Definition HandleMessageExportConfig (now : Z) (cfg appCfg : Config) : Config :=
  if negb (Bool.eqb (EnableExport (cfgMessageExportSettings cfg))
                    (EnableExport (cfgMessageExportSettings appCfg)))
  then
    if EnableExport (cfgMessageExportSettings cfg)
       && (ExportFromTimestamp (cfgMessageExportSettings cfg) =? 0)
    then setExportFromTimestamp now cfg
    else if negb (EnableExport (cfgMessageExportSettings cfg))
    then setExportFromTimestamp 0 cfg
    else cfg
  else cfg.

(** ** Persisted records and key material *)

(** [model.System]: a named record of the persistent key-value store. *)
Record System : Type := mkSystem {
  Name : string;
  Value : string
}.

Definition SystemPostActionCookieSecretKey : string := "PostActionCookieSecret".
Definition SystemAsymmetricSigningKeyKey : string := "AsymmetricSigningKey".

(** [model.SystemPostActionCookieSecret]; a nil [[]byte] is [None]. *)
Record SystemPostActionCookieSecret : Type := mkCookieSecret {
  Secret : option (list Byte.byte)
}.

(** [model.SystemECDSAKey]; the [*big.Int] coordinates may be nil. *)
Record SystemECDSAKey : Type := mkSystemECDSAKey {
  Curve : string;
  X : option Z;
  Y : option Z;
  D : option Z
}.

(** [model.SystemAsymmetricSigningKey]; [ECDSAKey] is a pointer. *)
Record SystemAsymmetricSigningKey : Type := mkSigningKey {
  ECDSAKey : option SystemECDSAKey
}.

(** [elliptic.Curve]: the only curve [config.go] ever builds. *)
Inductive elliptic_Curve : Type := P256.

Record ecdsa_PublicKey : Type := mkPublicKey {
  pubCurve : elliptic_Curve;
  pubX : option Z;
  pubY : option Z
}.

Record ecdsa_PrivateKey : Type := mkPrivateKey {
  PublicKey : ecdsa_PublicKey;
  privD : option Z
}.

(** Both coordinates of a public key are there.  [x509.MarshalPKIXPublicKey]
    dereferences them, so it panics on a key that lacks one. *)
Definition hasCoordinates (pub : ecdsa_PublicKey) : bool :=
  match pubX pub, pubY pub with
  | Some _, Some _ => true
  | _, _ => false
  end.

(** A cached key, if there is one, can be marshalled. *)
Definition usableKey (key : option ecdsa_PrivateKey) : bool :=
  match key with
  | Some k => hasCoordinates (PublicKey k)
  | None => true
  end.

Arguments hasCoordinates : simpl never.

(** The record [ensureAsymmetricSigningKey] builds from a freshly generated
    key: [&model.SystemAsymmetricSigningKey{ECDSAKey: &model.SystemECDSAKey{...}}]. *)
Definition newSigningKeyRecord (newECDSAKey : ecdsa_PrivateKey) : SystemAsymmetricSigningKey :=
  {| ECDSAKey := Some {| Curve := "P-256";
                         X := pubX (PublicKey newECDSAKey);
                         Y := pubY (PublicKey newECDSAKey);
                         D := privD newECDSAKey |} |}.

(** The key [ensureAsymmetricSigningKey] caches for a persisted record:
    [&ecdsa.PrivateKey{PublicKey: ecdsa.PublicKey{Curve: curve, X: ..., Y: ...}, D: ...}]. *)
Definition privateKeyOn (curve : elliptic_Curve) (ek : SystemECDSAKey) : ecdsa_PrivateKey :=
  {| PublicKey := {| pubCurve := curve; pubX := X ek; pubY := Y ek |};
     privD := D ek |}.

(** [model.TermsOfService], of which only the id is read. *)
Record TermsOfService : Type := mkTermsOfService {
  tosId : string
}.

(** ** Collaborators outside [config.go] *)

(** The stateful collaborators: the persistent store ([Store.System()],
    [Store.TermsOfService()]) and the randomness source.  [Env] is their
    joint state; every call may change it, which is how a write by a peer
    node between two calls of this node is accounted for.  A key that
    [ecdsa.GenerateKey] returns has both coordinates. *)
Class External (Env : Type) : Type := {
  System_GetByName : string -> Env -> (System + error) * Env;
  System_Save : System -> Env -> option error * Env;
  TermsOfService_GetLatest : bool -> Env -> (TermsOfService + error) * Env;
  rand_Read : nat -> Env -> (list Byte.byte + error) * Env;
  ecdsa_GenerateKey : elliptic_Curve -> Env -> (ecdsa_PrivateKey + error) * Env;
  ecdsa_GenerateKey_coordinates :
    forall (c : elliptic_Curve) (e e' : Env) (k : ecdsa_PrivateKey),
      ecdsa_GenerateKey c e = (inl k, e') -> hasCoordinates (PublicKey k) = true
}.

(** The pure functions of the Go library and of the packages [model] and
    [config] that [config.go] calls.  [json.Unmarshal] into a nil pointer
    yields [None] on the JSON text [null].  The two marshallers whose error
    the Go code discards ([json.Marshal] of a string map,
    [x509.MarshalPKIXPublicKey] on a key that has its coordinates) return the
    bytes they produced.  [fmt_Sprintf] is what package [fmt] makes of a
    format that holds verbs and is given no operand. *)
Class Library : Type := {
  License : Type;
  IsValid : Config -> option error;
  removeEnvOverrides : Config -> gmap string string -> Config;
  GenerateClientConfig : Config -> string -> option License -> gmap string string;
  GenerateLimitedClientConfig : Config -> string -> option License -> gmap string string;
  json_Unmarshal_secret : string -> option SystemPostActionCookieSecret + error;
  json_Marshal_secret : SystemPostActionCookieSecret -> string + error;
  json_Unmarshal_key : string -> option SystemAsymmetricSigningKey + error;
  json_Marshal_key : SystemAsymmetricSigningKey -> string + error;
  json_Marshal_map : gmap string string -> string;
  md5_Sum : string -> list Byte.byte;
  x509_MarshalPKIXPublicKey : ecdsa_PublicKey -> list Byte.byte;
  base64_EncodeToString : list Byte.byte -> string;
  fmt_Sprintf : string -> string
}.

(** The format holds a percent sign. *)
Fixpoint hasPercent (format : string) : bool :=
  match format with
  | EmptyString => false
  | String c rest => Ascii.eqb c "%" || hasPercent rest
  end.

(** [fmt.Errorf(format)] with no operand: a format without a percent sign is
    the message as it is; any other goes through the verbs of [fmt]. *)
Definition fmt_Errorf {lib : Library} (format : string) : error :=
  errorString (if hasPercent format then fmt_Sprintf format else format).

(** [fmt.Sprintf("%x", bytes)]: two lower-case hexadecimal digits per byte. *)
Definition hexDigit (n : N) : Ascii.ascii :=
  match n with
  | 0%N => "0" | 1%N => "1" | 2%N => "2" | 3%N => "3"
  | 4%N => "4" | 5%N => "5" | 6%N => "6" | 7%N => "7"
  | 8%N => "8" | 9%N => "9" | 10%N => "a" | 11%N => "b"
  | 12%N => "c" | 13%N => "d" | 14%N => "e" | _ => "f"
  end%char.

Fixpoint Sprintf_x (bs : list Byte.byte) : string :=
  match bs with
  | [] => ""
  | b :: rest =>
      String (hexDigit (N.div (Byte.to_N b) 16))
        (String (hexDigit (N.modulo (Byte.to_N b) 16)) (Sprintf_x rest))
  end.

(** [einterfaces.ClusterInterface], of which [config.go] calls one method. *)
Record ClusterInterface : Type := mkCluster {
  ConfigChanged : Config -> Config -> bool -> option AppError
}.

(** [einterfaces.MetricsInterface]; [Register] has no result. *)
Inductive MetricsInterface : Type := MetricsImpl.

(** ** The trace of outgoing calls *)

Inductive Event : Type :=
| EvStoreSet (cfg : Config)
| EvListener (id : string) (oldCfg newCfg : Config)
| EvMutator (cfg : Config)
| EvMetricsRegister
| EvSetupMetricsServer
| EvStopMetricsServer
| EvConfigChanged (oldCfg newCfg : Config) (send : bool)
| EvGetByName (key : string)
| EvSave (sys : System)
| EvRandRead (n : nat)
| EvGenerateKey
| EvGetLatestTermsOfService
| EvLog (level msg : string).

(** ** The configuration store *)

(** Modelled from the spec: the type [config.Store] (package [config], not
    part of [config.go]): the active document, the read-only flag, the ids of
    the registered listeners and the table of environment overrides. *)
Record Store : Type := mkStore {
  storeConfig : Config;
  storeReadOnly : bool;
  storeListeners : list string;
  storeEnvironmentOverrides : gmap string string
}.

(** Modelled from the spec: [Store.Get], "returns the currently active
    immutable document". *)
Definition Store_Get (st : Store) : Config := storeConfig st.

(** Modelled from the spec: [Store.IsReadOnly]. *)
Definition Store_IsReadOnly (st : Store) : bool := storeReadOnly st.

Definition installConfig (cfg : Config) (st : Store) : Store :=
  {| storeConfig := cfg;
     storeReadOnly := storeReadOnly st;
     storeListeners := storeListeners st;
     storeEnvironmentOverrides := storeEnvironmentOverrides st |}.

(** Modelled from the spec: [Store.Set], "validates and installs newDocument
    as active"; it fails with the read-only error on a read-only store, a
    validation failure prevents the swap, and "each registered listener is
    invoked exactly once per successful configuration swap".  The result is
    the Go triple (old, new, err) as a sum, the store after the call and the
    listener invocations it made. *)
Definition Store_Set {lib : Library} (newCfg : Config) (st : Store)
  : (Config * Config + error) * Store * list Event :=
  if storeReadOnly st then (inr ErrReadOnlyConfiguration, st, [])
  else
    match IsValid newCfg with
    | Some e => (inr (withMessage "new configuration is invalid" e), st, [])
    | None =>
        let oldCfg := storeConfig st in
        (inl (oldCfg, newCfg), installConfig newCfg st,
         map (fun id => EvListener id oldCfg newCfg) (storeListeners st))
    end.

(** Modelled from the spec: [Store.RemoveEnvironmentOverrides], which "strips
    all environment-variable-driven overrides" with the helper of package
    [config]. *)
Definition Store_RemoveEnvironmentOverrides {lib : Library} (st : Store) (cfg : Config) : Config :=
  removeEnvOverrides cfg (storeEnvironmentOverrides st).

(** ** The server, and the monad of its operations *)

(** The result of running a Go function: a normal return, [return err], or a
    panic. *)
Inductive res (A : Type) : Type :=
| Done (a : A)
| Fail (e : error)
| Panic.

Arguments Done {A} a.
Arguments Fail {A} e.
Arguments Panic {A}.


Declare Scope go_scope.
Delimit Scope go_scope with go.

Section Server.

Context {Env : Type} {ext : External Env} {lib : Library}.

(** The fields of [Server] that [config.go] reads.  [Metrics] and [Cluster]
    are interface values that may be nil. *)
Record Server : Type := mkServer {
  startMetrics : bool;
  Metrics : option MetricsInterface;
  Cluster : option ClusterInterface;
  configStore : Store;
  TelemetryId : string;
  srvLicense : option License
}.

(** The fields of [Channels] that [config.go] reads and writes.  The three
    client-config cells are [atomic.Value]s, empty until the first
    [regenerateClientConfig]. *)
Record Channels : Type := mkChannels {
  postActionCookieSecret : option (list Byte.byte);
  asymmetricSigningKey : option ecdsa_PrivateKey;
  clientConfig : option (gmap string string);
  limitedClientConfig : option (gmap string string);
  clientConfigHash : option string
}.

Record World : Type := mkWorld {
  srv : Server;
  ch : Channels;
  env : Env;
  trace : list Event
}.

Definition M (A : Type) : Type := World -> res A * World.

Definition ret {A : Type} (a : A) : M A := fun w => (Done a, w).

Definition bind {A B : Type} (m : M A) (k : A -> M B) : M B :=
  fun w =>
    match m w with
    | (Done a, w') => k a w'
    | (Fail e, w') => (Fail e, w')
    | (Panic, w') => (Panic, w')
    end.

Definition fail {A : Type} (e : error) : M A := fun w => (Fail e, w).
Definition panic {A : Type} : M A := fun w => (Panic, w).
Definition get : M World := fun w => (Done w, w).

Notation "x <- m ;; k" := (bind m (fun x => k))
  (at level 100, m at next level, right associativity) : go_scope.
Notation "m ;; k" := (bind m (fun _ => k))
  (at level 100, right associativity) : go_scope.

Local Open Scope go_scope.

(** A call that leaves [config.go]: recorded in the trace. *)
Definition emit (e : Event) : M unit :=
  fun w => (Done tt, {| srv := srv w; ch := ch w; env := env w; trace := trace w ++ [e] |}).

(** A recorded call to a stateful collaborator. *)
Definition call {A : Type} (e : Event) (f : Env -> A * Env) : M A :=
  fun w =>
    let '(a, env') := f (env w) in
    (Done a, {| srv := srv w; ch := ch w; env := env'; trace := trace w ++ [e] |}).

Definition setConfigStore (st : Store) : M unit :=
  fun w =>
    (Done tt,
     {| srv := {| startMetrics := startMetrics (srv w);
                  Metrics := Metrics (srv w);
                  Cluster := Cluster (srv w);
                  configStore := st;
                  TelemetryId := TelemetryId (srv w);
                  srvLicense := srvLicense (srv w) |};
        ch := ch w; env := env w; trace := trace w |}).

Definition setChannels (c : Channels) : M unit :=
  fun w => (Done tt, {| srv := srv w; ch := c; env := env w; trace := trace w |}).

Definition emitAll (es : list Event) : M unit :=
  fun w => (Done tt, {| srv := srv w; ch := ch w; env := env w; trace := trace w ++ es |}).

(** [mlog.Warn] and [mlog.Error]. *)
Definition mlog_Warn (msg : string) : M unit := emit (EvLog "warn" msg).
Definition mlog_Error (msg : string) : M unit := emit (EvLog "error" msg).

(** *** The configuration wrapper *)

(** [w.Store.Set(newCfg)]: the call, the listeners it fires and the store it
    leaves. *)
Definition configWrapper_Set (newCfg : Config) : M (Config * Config + error) :=
  w <- get ;;
  let '(r, st, fired) := Store_Set newCfg (configStore (srv w)) in
  emit (EvStoreSet newCfg) ;;
  setConfigStore st ;;
  emitAll fired ;;
  ret r.

(** [configWrapper.Config], to which [Server.Config] and [App.Config] forward. *)
Definition Config_ (w : World) : Config := Store_Get (configStore (srv w)).

(** [configWrapper.UpdateConfig], to which [Server.UpdateConfig] and
    [App.UpdateConfig] forward.  The mutator [f] works on the clone. *)
Definition UpdateConfig (f : Config -> Config) : M unit :=
  w <- get ;;
  if Store_IsReadOnly (configStore (srv w)) then ret tt
  else
    let old := Config_ w in
    let updated := Clone old in
    emit (EvMutator updated) ;;
    let updated := f updated in
    r <- configWrapper_Set updated ;;
    match r with
    | inr err => mlog_Error "Failed to update config"
    | inl _ => ret tt
    end.

(** [configWrapper.SaveConfig], to which [Server.SaveConfig] and
    [App.SaveConfig] forward.  The result is the Go triple. *)
Definition SaveConfig (newCfg : Config) (sendConfigChangeClusterMessage : bool)
  : M (option Config * option Config * option AppError) :=
  r <- configWrapper_Set newCfg ;;
  match r with
  | inr err =>
      if causeIsReadOnly (Some err)
      then ret (None, None,
                Some (NewAppError "saveConfig" "ent.cluster.save_config.error"
                                  (Error err) StatusForbidden))
      else ret (None, None,
                Some (NewAppError "saveConfig" "app.save_config.app_error"
                                  (Error err) StatusInternalServerError))
  | inl (oldCfg, newCfg) =>
      w <- get ;;
      (if startMetrics (srv w) && Enable (cfgMetricsSettings (Config_ w))
       then
         (match Metrics (srv w) with
          | Some _ => emit EvMetricsRegister
          | None => ret tt
          end) ;;
         emit EvSetupMetricsServer
       else emit EvStopMetricsServer) ;;
      match Cluster (srv w) with
      | Some cluster =>
          let oldSent := Store_RemoveEnvironmentOverrides (configStore (srv w)) oldCfg in
          let newSent := Store_RemoveEnvironmentOverrides (configStore (srv w)) newCfg in
          emit (EvConfigChanged oldSent newSent sendConfigChangeClusterMessage) ;;
          match ConfigChanged cluster oldSent newSent sendConfigChangeClusterMessage with
          | Some err => ret (None, None, Some err)
          | None => ret (Some oldCfg, Some newCfg, None)
          end
      | None => ret (Some oldCfg, Some newCfg, None)
      end
  end.

(** *** The client-config snapshot *)

Definition modifyChannels (f : Channels -> Channels) : M unit :=
  w <- get ;; setChannels (f (ch w)).

(** [Channels.AsymmetricSigningKey] and [Channels.PostActionCookieSecret]. *)
Definition AsymmetricSigningKey (w : World) : option ecdsa_PrivateKey :=
  asymmetricSigningKey (ch w).

Definition PostActionCookieSecret (w : World) : option (list Byte.byte) :=
  postActionCookieSecret (ch w).

(** [m[key]] on a Go [map[string]string]: the empty string when absent. *)
Definition mapIndex (m : gmap string string) (key : string) : string :=
  default "" (m !! key).

(** [Channels.regenerateClientConfig].  In the error branch of [GetLatest] the
    Go code only builds a log field ([mlog.Err(err)]); nothing is logged.
    [x509.MarshalPKIXPublicKey] dereferences the coordinates of the key: on a
    cached key that lacks one it panics, after the lookup of the terms of
    service and before any cell is stored. *)
Definition regenerateClientConfig : M unit :=
  w <- get ;;
  let clientConfig0 :=
    GenerateClientConfig (Config_ w) (TelemetryId (srv w)) (srvLicense (srv w)) in
  let limitedClientConfig0 :=
    GenerateLimitedClientConfig (Config_ w) (TelemetryId (srv w)) (srvLicense (srv w)) in
  maps <- (if String.eqb (mapIndex clientConfig0 "EnableCustomTermsOfService") "true"
           then
             r <- call EvGetLatestTermsOfService (TermsOfService_GetLatest true) ;;
             match r with
             | inr err => ret (clientConfig0, limitedClientConfig0)
             | inl termsOfService =>
                 ret (<["CustomTermsOfServiceId" := tosId termsOfService]> clientConfig0,
                      <["CustomTermsOfServiceId" := tosId termsOfService]> limitedClientConfig0)
             end
           else ret (clientConfig0, limitedClientConfig0)) ;;
  w1 <- get ;;
  maps1 <- match AsymmetricSigningKey w1 with
           | Some key =>
               if hasCoordinates (PublicKey key)
               then
                 let der := x509_MarshalPKIXPublicKey (PublicKey key) in
                 ret (<["AsymmetricSigningPublicKey" := base64_EncodeToString der]>
                        (fst maps),
                      <["AsymmetricSigningPublicKey" := base64_EncodeToString der]>
                        (snd maps))
               else panic
           | None => ret maps
           end ;;
  let clientConfigJSON := json_Marshal_map (fst maps1) in
  modifyChannels (fun c =>
    {| postActionCookieSecret := postActionCookieSecret c;
       asymmetricSigningKey := asymmetricSigningKey c;
       clientConfig := Some (fst maps1);
       limitedClientConfig := Some (snd maps1);
       clientConfigHash := Some (Sprintf_x (md5_Sum clientConfigJSON)) |}).

(** [App.ClientConfig] and [App.LimitedClientConfig]: the type assertion on
    an empty [atomic.Value] panics. *)
Definition ClientConfig : M (gmap string string) :=
  w <- get ;;
  match clientConfig (ch w) with
  | Some m => ret m
  | None => panic
  end.

Definition LimitedClientConfig : M (gmap string string) :=
  w <- get ;;
  match limitedClientConfig (ch w) with
  | Some m => ret m
  | None => panic
  end.

(** Modelled from the spec: [Channels.ClientConfigHash] (declared outside
    [config.go]), the read-only accessor of the hash cell, to which
    [App.ClientConfigHash] forwards. *)
Definition ClientConfigHash : M string :=
  w <- get ;;
  match clientConfigHash (ch w) with
  | Some h => ret h
  | None => panic
  end.

(** *** The two coordinated secrets *)

(** [err := json.Unmarshal([]byte(value.Value), &secret)] followed by
    [if err != nil { return err }]. *)
Definition decodeOrFail {A : Type} (unmarshal : string -> option A + error)
  (value : System) : M (option A) :=
  match unmarshal (Value value) with
  | inr err => fail err
  | inl decoded => ret decoded
  end.

(** [Channels.ensurePostActionCookieSecret]. *)
Definition ensurePostActionCookieSecret : M unit :=
  w <- get ;;
  match postActionCookieSecret (ch w) with
  | Some _ => ret tt
  | None =>
      r <- call (EvGetByName SystemPostActionCookieSecretKey)
                (System_GetByName SystemPostActionCookieSecretKey) ;;
      secret <- match r with
                | inl value => decodeOrFail json_Unmarshal_secret value
                | inr _ => ret None
                end ;;
      (* If we don't already have a key, try to generate one. *)
      secret <- match secret with
                | Some s => ret (Some s)
                | None =>
                    rd <- call (EvRandRead 32) (rand_Read 32) ;;
                    match rd with
                    | inr err => fail err
                    | inl bytes =>
                        let newSecret := {| Secret := Some bytes |} in
                        match json_Marshal_secret newSecret with
                        | inr err => fail err
                        | inl v =>
                            let system := {| Name := SystemPostActionCookieSecretKey;
                                             Value := v |} in
                            saved <- call (EvSave system) (System_Save system) ;;
                            match saved with
                            | Some err =>
                                mlog_Warn "Failed to save PostActionCookieSecret" ;;
                                ret None
                            | None => ret (Some newSecret)
                            end
                        end
                    end
                end ;;
      (* Another server must have beat us to it: read the key back. *)
      secret <- match secret with
                | Some s => ret (Some s)
                | None =>
                    r <- call (EvGetByName SystemPostActionCookieSecretKey)
                              (System_GetByName SystemPostActionCookieSecretKey) ;;
                    match r with
                    | inr err => fail err
                    | inl value => decodeOrFail json_Unmarshal_secret value
                    end
                end ;;
      match secret with
      | None => panic
      | Some s =>
          modifyChannels (fun c =>
            {| postActionCookieSecret := Secret s;
               asymmetricSigningKey := asymmetricSigningKey c;
               clientConfig := clientConfig c;
               limitedClientConfig := limitedClientConfig c;
               clientConfigHash := clientConfigHash c |})
      end
  end.

(** [Channels.ensureAsymmetricSigningKey]. *)
Definition ensureAsymmetricSigningKey : M unit :=
  w <- get ;;
  match AsymmetricSigningKey w with
  | Some _ => ret tt
  | None =>
      r <- call (EvGetByName SystemAsymmetricSigningKeyKey)
                (System_GetByName SystemAsymmetricSigningKeyKey) ;;
      key <- match r with
             | inl value => decodeOrFail json_Unmarshal_key value
             | inr _ => ret None
             end ;;
      (* If we don't already have a key, try to generate one. *)
      key <- match key with
             | Some k => ret (Some k)
             | None =>
                 g <- call EvGenerateKey (ecdsa_GenerateKey P256) ;;
                 match g with
                 | inr err => fail err
                 | inl newECDSAKey =>
                     let newKey := newSigningKeyRecord newECDSAKey in
                     match json_Marshal_key newKey with
                     | inr err => fail err
                     | inl v =>
                         let system := {| Name := SystemAsymmetricSigningKeyKey;
                                          Value := v |} in
                         saved <- call (EvSave system) (System_Save system) ;;
                         match saved with
                         | Some err =>
                             mlog_Warn "Failed to save AsymmetricSigningKey" ;;
                             ret None
                         | None => ret (Some newKey)
                         end
                     end
                 end
             end ;;
      (* Another server must have beat us to it: read the key back. *)
      key <- match key with
             | Some k => ret (Some k)
             | None =>
                 r <- call (EvGetByName SystemAsymmetricSigningKeyKey)
                           (System_GetByName SystemAsymmetricSigningKeyKey) ;;
                 match r with
                 | inr err => fail err
                 | inl value => decodeOrFail json_Unmarshal_key value
                 end
             end ;;
      match key with
      | None => panic
      | Some k =>
          match ECDSAKey k with
          | None => panic
          | Some ek =>
              if String.eqb (Curve ek) "P-256"
              then
                modifyChannels (fun c =>
                  {| postActionCookieSecret := postActionCookieSecret c;
                     asymmetricSigningKey := Some (privateKeyOn P256 ek);
                     clientConfig := clientConfig c;
                     limitedClientConfig := limitedClientConfig c;
                     clientConfigHash := clientConfigHash c |}) ;;
                regenerateClientConfig
              else fail (fmt_Errorf ("unknown curve: " +:+ Curve ek))
          end
      end
  end.

End Server.

Arguments World Env {_}.
Arguments M Env {_} A.

(** ** Reading a trace *)

(** The calls made between two worlds of one run. *)
Definition newEvents {lib : Library} {Env : Type} (w w' : World Env) : list Event :=
  drop (length (trace w)) (trace w').

Definition isMetricsEvent (e : Event) : bool :=
  match e with
  | EvMetricsRegister | EvSetupMetricsServer | EvStopMetricsServer => true
  | _ => false
  end.

Definition isConfigChanged (e : Event) : bool :=
  match e with
  | EvConfigChanged _ _ _ => true
  | _ => false
  end.

(** What a [SaveConfig] whose [Set] succeeded calls next: the metrics toggle
    and the cluster notification, and what the cluster answers. *)
Definition metricsCalls {lib : Library} {Env : Type} (w : World Env) (newCfg : Config)
  : list Event :=
  if startMetrics (srv w) && Enable (cfgMetricsSettings newCfg)
  then match Metrics (srv w) with
       | Some _ => [EvMetricsRegister; EvSetupMetricsServer]
       | None => [EvSetupMetricsServer]
       end
  else [EvStopMetricsServer].

Definition clusterCalls {lib : Library} {Env : Type} (w : World Env) (st : Store)
  (oldCfg newCfg : Config) (send : bool) : list Event :=
  match Cluster (srv w) with
  | Some _ => [EvConfigChanged (Store_RemoveEnvironmentOverrides st oldCfg)
                               (Store_RemoveEnvironmentOverrides st newCfg) send]
  | None => []
  end.

Definition clusterAnswer {lib : Library} {Env : Type} (w : World Env) (st : Store)
  (oldCfg newCfg : Config) (send : bool) : option AppError :=
  match Cluster (srv w) with
  | Some c => ConfigChanged c (Store_RemoveEnvironmentOverrides st oldCfg)
                            (Store_RemoveEnvironmentOverrides st newCfg) send
  | None => None
  end.


(** The first read found no secret to adopt: no record, or the JSON [null]. *)
Definition yieldsNoSecret {A : Type} (unmarshal : string -> option A + error)
  (r : System + error) : bool :=
  match r with
  | inr _ => true
  | inl value =>
      match unmarshal (Value value) with
      | inl None => true
      | _ => false
      end
  end.


(** ** A concrete node, for running the operations *)

Module Sample.

(** A persistent store shared with one peer node: [records] is the table,
    and [peerWrite] is an insert of the peer that lands right after this
    node's next read. *)
Record SimEnv : Type := mkSimEnv {
  records : gmap string string;
  peerWrite : option System;
  latestTerms : option TermsOfService
}.

Definition landPeerWrite (e : SimEnv) : SimEnv :=
  match peerWrite e with
  | Some sys =>
      {| records := match records e !! Name sys with
                    | Some _ => records e
                    | None => <[Name sys := Value sys]> (records e)
                    end;
         peerWrite := None;
         latestTerms := latestTerms e |}
  | None => e
  end.

Definition simGetByName (key : string) (e : SimEnv) : (System + error) * SimEnv :=
  (match records e !! key with
   | Some v => inl {| Name := key; Value := v |}
   | None => inr (errorString "sql: no rows in result set")
   end,
   landPeerWrite e).

(** Insert-if-absent: a second insert under the same name is refused. *)
Definition simSave (sys : System) (e : SimEnv) : option error * SimEnv :=
  match records e !! Name sys with
  | Some _ => (Some (errorString "duplicate key value violates unique constraint"), e)
  | None =>
      (None,
       {| records := <[Name sys := Value sys]> (records e);
          peerWrite := peerWrite e;
          latestTerms := latestTerms e |})
  end.

Definition simGetLatest (_ : bool) (e : SimEnv) : (TermsOfService + error) * SimEnv :=
  (match latestTerms e with
   | Some t => inl t
   | None => inr (errorString "app.terms_of_service.get.no_rows.app_error")
   end, e).

Definition simKey : ecdsa_PrivateKey :=
  {| PublicKey := {| pubCurve := P256; pubX := Some 11; pubY := Some 12 |};
     privD := Some 13 |}.

#[export] Instance simExternal : External SimEnv := {|
  System_GetByName := simGetByName;
  System_Save := simSave;
  TermsOfService_GetLatest := simGetLatest;
  rand_Read := fun n e => (inl (repeat Byte.x2a n), e);
  ecdsa_GenerateKey := fun _ e => (inl simKey, e);
  ecdsa_GenerateKey_coordinates := fun _ e e' k (H : (inl simKey, e) = (inl k, e')) =>
    match H in (_ = p) return
      match fst p with
      | inl k' => hasCoordinates (PublicKey k') = true
      | inr _ => True
      end
    with eq_refl => eq_refl end
|}.

(** A stand-in codec: the text of a key record is the name of its curve, the
    text of a secret record is the secret itself; [null] decodes to a nil
    pointer, [corrupt] does not decode, and [P-256 only] is a record on P-256
    that lacks its coordinates. *)
Definition simUnmarshalKey (s : string) : option SystemAsymmetricSigningKey + error :=
  if String.eqb s "null" then inl None
  else if String.eqb s "corrupt" then inr (errorString "invalid character")
  else if String.eqb s "P-256 only"
  then inl (Some {| ECDSAKey := Some {| Curve := "P-256"; X := None; Y := None;
                                        D := None |} |})
  else inl (Some {| ECDSAKey := Some {| Curve := s; X := Some 11; Y := Some 12;
                                        D := Some 13 |} |}).

Definition simMarshalKey (k : SystemAsymmetricSigningKey) : string + error :=
  match ECDSAKey k with
  | Some ek => inl (Curve ek)
  | None => inl "null"
  end.

Definition simUnmarshalSecret (s : string) : option SystemPostActionCookieSecret + error :=
  if String.eqb s "null" then inl None
  else if String.eqb s "corrupt" then inr (errorString "invalid character")
  else inl (Some {| Secret := Some (list_byte_of_string s) |}).

Definition simMarshalSecret (s : SystemPostActionCookieSecret) : string + error :=
  inl (string_of_list_byte (default [] (Secret s))).

Definition simMarshalMap (m : gmap string string) : string :=
  foldr (fun kv acc => fst kv +:+ "=" +:+ snd kv +:+ ";" +:+ acc) "" (map_to_list m).

(** [fmt.Sprintf(format)] with no operand, for verbs without flags, width or
    precision: [%%] is a percent sign, any other verb is reported as missing
    its operand, and a percent sign that ends the format as lacking a verb. *)
Fixpoint simSprintf (format : string) : string :=
  match format with
  | EmptyString => EmptyString
  | String c rest =>
      if Ascii.eqb c "%"
      then match rest with
           | EmptyString => "%!(NOVERB)"
           | String verb rest' =>
               if Ascii.eqb verb "%"
               then String verb (simSprintf rest')
               else "%!" +:+ String verb ("(MISSING)" +:+ simSprintf rest')
           end
      else String c (simSprintf rest)
  end.

(** Stripping deletes every overridden path from the document. *)
Definition simRemoveEnvOverrides (cfg : Config) (overrides : gmap string string) : Config :=
  {| cfgServiceSettings := cfgServiceSettings cfg;
     cfgMetricsSettings := cfgMetricsSettings cfg;
     cfgMessageExportSettings := cfgMessageExportSettings cfg;
     OtherSettings := OtherSettings cfg ∖ overrides |}.

#[export] Instance simLibrary : Library := {|
  License := unit;
  IsValid := fun cfg =>
    if ExportFromTimestamp (cfgMessageExportSettings cfg) <? 0
    then Some (errorString "model.config.is_valid.message_export.export_from.app_error")
    else None;
  removeEnvOverrides := simRemoveEnvOverrides;
  GenerateClientConfig := fun cfg id _ => <["DiagnosticId" := id]> (OtherSettings cfg);
  GenerateLimitedClientConfig := fun cfg id _ => {["DiagnosticId" := id]};
  json_Unmarshal_secret := simUnmarshalSecret;
  json_Marshal_secret := simMarshalSecret;
  json_Unmarshal_key := simUnmarshalKey;
  json_Marshal_key := simMarshalKey;
  json_Marshal_map := simMarshalMap;
  md5_Sum := fun s => take 16 (list_byte_of_string s);
  x509_MarshalPKIXPublicKey := fun _ => [Byte.x30];
  base64_EncodeToString := string_of_list_byte;
  fmt_Sprintf := simSprintf
|}.

Definition doc (metrics export : bool) (from : Z) : Config :=
  {| cfgServiceSettings := {| SiteURL := "http://localhost:8065";
                              AllowCookiesForSubdomains := false |};
     cfgMetricsSettings := {| Enable := metrics |};
     cfgMessageExportSettings := {| EnableExport := export;
                                    ExportFromTimestamp := from |};
     OtherSettings := {["SqlSettings.DataSource" := "postgres://env"]} |}.

Definition store (readOnly : bool) : Store :=
  {| storeConfig := doc false false 0;
     storeReadOnly := readOnly;
     storeListeners := ["listener-1"];
     storeEnvironmentOverrides := {["SqlSettings.DataSource" := "postgres://env"]} |}.

Definition failingCluster : ClusterInterface :=
  {| ConfigChanged := fun _ _ _ =>
       Some (NewAppError "ConfigChanged" "ent.cluster.config_changed.error" "" 500) |}.

Definition healthyCluster : ClusterInterface :=
  {| ConfigChanged := fun _ _ _ => None |}.

Definition emptyChannels : Channels :=
  {| postActionCookieSecret := None;
     asymmetricSigningKey := None;
     clientConfig := None;
     limitedClientConfig := None;
     clientConfigHash := None |}.

Definition node (start readOnly : bool) (cluster : option ClusterInterface)
  (c : Channels) (e : SimEnv) : World SimEnv :=
  {| srv := {| startMetrics := start;
               Metrics := Some MetricsImpl;
               Cluster := cluster;
               configStore := store readOnly;
               TelemetryId := "telemetry-id";
               srvLicense := None |};
     ch := c;
     env := e;
     trace := [] |}.

Definition emptyEnv : SimEnv :=
  {| records := ∅; peerWrite := None; latestTerms := None |}.

(** The store as a peer is about to win the race with the given record. *)
Definition racedEnv (key value : string) : SimEnv :=
  {| records := ∅;
     peerWrite := Some {| Name := key; Value := value |};
     latestTerms := None |}.

(** The store holding one record. *)
Definition envWith (key value : string) : SimEnv :=
  {| records := {[key := value]}; peerWrite := None; latestTerms := None |}.

Definition cachedKeyChannels : Channels :=
  {| postActionCookieSecret := None;
     asymmetricSigningKey := Some simKey;
     clientConfig := None;
     limitedClientConfig := None;
     clientConfigHash := None |}.

End Sample.

(** ** More readings of a trace *)

Definition isGetByName (e : Event) : bool :=
  match e with
  | EvGetByName _ => true
  | _ => false
  end.

Definition isSave (e : Event) : bool :=
  match e with
  | EvSave _ => true
  | _ => false
  end.

(** A call to the persistent store names the given key. *)
Definition concernsKey (key : string) (e : Event) : bool :=
  match e with
  | EvGetByName k => String.eqb k key
  | EvSave sys => String.eqb (Name sys) key
  | _ => true
  end.

Definition isHexDigit (c : Ascii.ascii) : bool :=
  existsb (Ascii.eqb c)
    ["0"; "1"; "2"; "3"; "4"; "5"; "6"; "7"; "8"; "9"; "a"; "b"; "c"; "d"; "e"; "f"]%char.

(** The two injections of [regenerateClientConfig] into a projection: the id
    of the latest terms of service, when they were looked up and found, and
    the public key, when a signing key is cached. *)
Definition withTermsOfService (r : option (TermsOfService + error))
  (m : gmap string string) : gmap string string :=
  match r with
  | Some (inl termsOfService) => <["CustomTermsOfServiceId" := tosId termsOfService]> m
  | _ => m
  end.

Definition withPublicKey {lib : Library} (key : option ecdsa_PrivateKey)
  (m : gmap string string) : gmap string string :=
  match key with
  | Some k =>
      <["AsymmetricSigningPublicKey" :=
          base64_EncodeToString (x509_MarshalPKIXPublicKey (PublicKey k))]> m
  | None => m
  end.

(** ** Computed client configuration and installation records *)

(** [strconv.FormatInt(i, 10)], [strconv.Itoa] and [strconv.FormatBool]. *)
Definition strconv_FormatInt (i : Z) : string :=
  NilZero.string_of_int (Z.to_int i).

Definition strconv_Itoa (i : Z) : string := strconv_FormatInt i.

Definition strconv_FormatBool (b : bool) : string :=
  if b then "true" else "false".

Definition SystemInstallationDateKey : string := "InstallationDate".
Definition SystemFirstServerRunTimestampKey : string := "FirstServerRunTimestamp".

(** The methods of [Server], of its user service and of the store that the
    rest of [config.go] calls and that are declared in other files.  They
    thread the state of the collaborators like the calls of [External]; they
    are not recorded in the trace.  [MillisNow] is
    [utils.MillisFromTime(time.Now())]. *)
Class ServerQueries (Env : Type) : Type := {
  IsFirstUserAccount : Env -> bool * Env;
  MaxPostSize : Env -> Z * Env;
  isUpgradedFromTE : Env -> bool * Env;
  getSystemInstallDate : Env -> (Z + AppError) * Env;
  getFirstServerRunTimestamp : Env -> (Z + AppError) * Env;
  User_InferSystemInstallDate : Env -> (Z + error) * Env;
  System_SaveOrUpdate : System -> Env -> option error * Env;
  MillisNow : Env -> Z * Env
}.

(** [for k, v := range m { respCfg[k] = v }] into an empty map. *)
Definition copyMap (m : gmap string string) : gmap string string :=
  foldr (fun kv respCfg => <[fst kv := snd kv]> respCfg) ∅ (map_to_list m).

Section Computed.

Context {Env : Type} {ext : External Env} {lib : Library} {qry : ServerQueries Env}.

Notation "x <- m ;; k" := (bind m (fun x => k))
  (at level 100, m at next level, right associativity) : go_scope.

Local Open Scope go_scope.

(** A call to one of the [ServerQueries]. *)
Definition query {A : Type} (f : Env -> A * Env) : M Env A :=
  fun w =>
    let '(a, env') := f (env w) in
    (Done a, {| srv := srv w; ch := ch w; env := env'; trace := trace w |}).

(** [App.ClientConfigWithComputed]. *)
Definition ClientConfigWithComputed : M Env (gmap string string) :=
  snapshot <- ClientConfig ;;
  let respCfg := copyMap snapshot in
  noAccounts <- query IsFirstUserAccount ;;
  let respCfg := <["NoAccounts" := strconv_FormatBool noAccounts]> respCfg in
  maxPostSize <- query MaxPostSize ;;
  let respCfg := <["MaxPostSize" := strconv_Itoa maxPostSize]> respCfg in
  upgraded <- query isUpgradedFromTE ;;
  let respCfg := <["UpgradedFromTE" := strconv_FormatBool upgraded]> respCfg in
  let respCfg := <["InstallationDate" := ""]> respCfg in
  r <- query getSystemInstallDate ;;
  match r with
  | inl installationDate =>
      ret (<["InstallationDate" := strconv_FormatInt installationDate]> respCfg)
  | inr _ => ret respCfg
  end.

(** [App.LimitedClientConfigWithComputed]. *)
Definition LimitedClientConfigWithComputed : M Env (gmap string string) :=
  snapshot <- LimitedClientConfig ;;
  let respCfg := copyMap snapshot in
  noAccounts <- query IsFirstUserAccount ;;
  ret (<["NoAccounts" := strconv_FormatBool noAccounts]> respCfg).

(** [Server.ensureInstallationDate]. *)
Definition ensureInstallationDate : M Env unit :=
  r <- query getSystemInstallDate ;;
  match r with
  | inl _ => ret tt
  | inr _ =>
      inferred <- query User_InferSystemInstallDate ;;
      installationDate <- match inferred with
                          | inl installDate =>
                              if 0 <? installDate then ret installDate
                              else query MillisNow
                          | inr _ => query MillisNow
                          end ;;
      saved <- query (System_SaveOrUpdate
                        {| Name := SystemInstallationDateKey;
                           Value := strconv_FormatInt installationDate |}) ;;
      match saved with
      | Some err => fail err
      | None => ret tt
      end
  end.

(** [Server.ensureFirstServerRunTimestamp]. *)
Definition ensureFirstServerRunTimestamp : M Env unit :=
  r <- query getFirstServerRunTimestamp ;;
  match r with
  | inl _ => ret tt
  | inr _ =>
      now <- query MillisNow ;;
      saved <- query (System_SaveOrUpdate
                        {| Name := SystemFirstServerRunTimestampKey;
                           Value := strconv_FormatInt now |}) ;;
      match saved with
      | Some err => fail err
      | None => ret tt
      end
  end.

End Computed.

(** The concrete node, with its remaining collaborators. *)
Module SampleQueries.

Import Sample.

(** A decimal record of the table, if it is there and well formed. *)
Definition simReadInt (key : string) (e : SimEnv) : Z + AppError :=
  match records e !! key with
  | Some v =>
      match NilZero.int_of_string v with
      | Some i => inl (Z.of_int i)
      | None => inr (NewAppError "getSystemInstallDate" "app.system.parse.app_error" v 500)
      end
  | None => inr (NewAppError "getSystemInstallDate" "app.system.get_by_name.app_error" key 500)
  end.

Definition simSaveOrUpdate (sys : System) (e : SimEnv) : option error * SimEnv :=
  (None,
   {| records := <[Name sys := Value sys]> (records e);
      peerWrite := peerWrite e;
      latestTerms := latestTerms e |}).

(** The creation time of the oldest user is kept in the table as well. *)
Definition simInfer (e : SimEnv) : (Z + error) * SimEnv :=
  (match simReadInt "Users.MinCreateAt" e with
   | inl z => inl z
   | inr _ => inr (errorString "sql: no rows in result set")
   end, e).

#[export] Instance simQueries : ServerQueries SimEnv := {|
  IsFirstUserAccount := fun e => (true, e);
  MaxPostSize := fun e => (16383, e);
  isUpgradedFromTE := fun e => (false, e);
  getSystemInstallDate := fun e => (simReadInt SystemInstallationDateKey e, e);
  getFirstServerRunTimestamp :=
    fun e => (simReadInt SystemFirstServerRunTimestampKey e, e);
  User_InferSystemInstallDate := simInfer;
  System_SaveOrUpdate := simSaveOrUpdate;
  MillisNow := fun e => (1700000000000, e)
|}.

(** A node whose client-config snapshot holds one entry of each map. *)
Definition snapshotChannels : Channels :=
  {| postActionCookieSecret := None;
     asymmetricSigningKey := None;
     clientConfig := Some {["NoAccounts" := "stale"; "SiteName" := "Mattermost"]};
     limitedClientConfig := Some {["SiteName" := "Mattermost"]};
     clientConfigHash := Some "00" |}.

(** A node whose active document asks for custom terms of service, with
    terms on record. *)
Definition termsStore : Store :=
  {| storeConfig :=
       {| cfgServiceSettings := cfgServiceSettings (doc false false 0);
          cfgMetricsSettings := cfgMetricsSettings (doc false false 0);
          cfgMessageExportSettings := cfgMessageExportSettings (doc false false 0);
          OtherSettings := {["EnableCustomTermsOfService" := "true"]} |};
     storeReadOnly := false;
     storeListeners := [];
     storeEnvironmentOverrides := ∅ |}.

Definition termsNode : World SimEnv :=
  {| srv := {| startMetrics := false;
               Metrics := None;
               Cluster := None;
               configStore := termsStore;
               TelemetryId := "telemetry-id";
               srvLicense := None |};
     ch := cachedKeyChannels;
     env := {| records := ∅; peerWrite := None;
               latestTerms := Some {| tosId := "terms-1" |} |};
     trace := [] |}.

End SampleQueries.

(** * Properties *)

Section Properties.

Context {Env : Type} {ext : External Env} {lib : Library}.

(** ** Running the monad *)

Ltac run :=
  unfold bind, get, ret, emit, emitAll, setConfigStore, call, fail, panic,
    modifyChannels, setChannels, mlog_Warn, mlog_Error; simpl.


Lemma newEvents_app (w w' : World Env) (es : list Event) :
  trace w' = trace w ++ es -> newEvents w w' = es.
Proof. intros E. unfold newEvents. rewrite E. apply drop_app_length. Qed.

(** ** The configuration store *)

Lemma Store_Set_failure (newCfg : Config) (st st' : Store) (err : error)
  (fired : list Event) :
  Store_Set newCfg st = (inr err, st', fired) -> st' = st /\ fired = [].
Proof.
  unfold Store_Set. destruct (storeReadOnly st); [intros [= _ <- <-]; auto|].
  destruct (IsValid newCfg); intros [= ]; subst; auto.
Qed.

Lemma Store_Set_success (newCfg : Config) (st st' : Store) (oldCfg newCfg' : Config)
  (fired : list Event) :
  Store_Set newCfg st = (inl (oldCfg, newCfg'), st', fired) ->
  oldCfg = Store_Get st /\ newCfg' = newCfg /\ Store_Get st' = newCfg
  /\ fired = map (fun id => EvListener id oldCfg newCfg) (storeListeners st).
Proof.
  unfold Store_Set. destruct (storeReadOnly st); [intros [= ]|].
  destruct (IsValid newCfg); intros [= ]; subst; auto.
Qed.

Lemma configWrapper_Set_run (newCfg : Config) (w : World Env)
  (r : Config * Config + error) (st : Store) (fired : list Event) :
  Store_Set newCfg (configStore (srv w)) = (r, st, fired) ->
  configWrapper_Set newCfg w =
    (Done r,
     {| srv := {| startMetrics := startMetrics (srv w);
                  Metrics := Metrics (srv w);
                  Cluster := Cluster (srv w);
                  configStore := st;
                  TelemetryId := TelemetryId (srv w);
                  srvLicense := srvLicense (srv w) |};
        ch := ch w; env := env w;
        trace := (trace w ++ [EvStoreSet newCfg]) ++ fired |}).
Proof.
  intros E. unfold configWrapper_Set. run. rewrite E. reflexivity.
Qed.

(** ** [SaveConfig], path by path *)

Lemma SaveConfig_run_failure (newCfg : Config) (send : bool) (w : World Env)
  (err : error) (st : Store) (fired : list Event) :
  Store_Set newCfg (configStore (srv w)) = (inr err, st, fired) ->
  exists w',
    SaveConfig newCfg send w =
      (Done (None, None,
             Some (if causeIsReadOnly (Some err)
                   then NewAppError "saveConfig" "ent.cluster.save_config.error"
                                    (Error err) StatusForbidden
                   else NewAppError "saveConfig" "app.save_config.app_error"
                                    (Error err) StatusInternalServerError)), w')
    /\ configStore (srv w') = configStore (srv w)
    /\ trace w' = trace w ++ [EvStoreSet newCfg].
Proof.
  intros E. destruct (Store_Set_failure _ _ _ _ _ E) as [-> ->].
  unfold SaveConfig, bind at 1. rewrite (configWrapper_Set_run _ _ _ _ _ E).
  destruct (causeIsReadOnly (Some err)); run;
    (eexists; split; [reflexivity|]; simpl; split; [reflexivity|]);
    now rewrite app_nil_r.
Qed.

Lemma SaveConfig_run_success (newCfg : Config) (send : bool) (w : World Env)
  (oldCfg newCfg' : Config) (st : Store) (fired : list Event) :
  Store_Set newCfg (configStore (srv w)) = (inl (oldCfg, newCfg'), st, fired) ->
  exists w',
    SaveConfig newCfg send w =
      (Done (match clusterAnswer w st oldCfg newCfg' send with
             | Some err => (None, None, Some err)
             | None => (Some oldCfg, Some newCfg', None)
             end), w')
    /\ configStore (srv w') = st
    /\ trace w' = trace w ++ EvStoreSet newCfg :: fired
                          ++ metricsCalls w newCfg' ++ clusterCalls w st oldCfg newCfg' send.
Proof.
  intros E. destruct (Store_Set_success _ _ _ _ _ _ E) as (-> & -> & Hg & ->).
  unfold SaveConfig, bind at 1. rewrite (configWrapper_Set_run _ _ _ _ _ E).
  unfold clusterAnswer, clusterCalls, metricsCalls, Config_. run. rewrite Hg.
  destruct (startMetrics (srv w) && Enable (cfgMetricsSettings newCfg)) eqn:Em;
    destruct (Metrics (srv w)) as [m|]; destruct (Cluster (srv w)) as [c|]; simpl;
    try destruct (ConfigChanged c _ _ send); simpl;
    (eexists; split; [reflexivity|]; simpl; split; [reflexivity|]);
    repeat rewrite <- app_assoc; simpl; rewrite ?app_nil_r; reflexivity.
Qed.

(** A [SaveConfig] that returned no error, taken apart. *)
Lemma SaveConfig_success_inv (newCfg : Config) (send : bool) (w w' : World Env)
  (o n : option Config) :
  SaveConfig newCfg send w = (Done (o, n, None), w') ->
  exists oldCfg fired,
    Store_Set newCfg (configStore (srv w)) = (inl (oldCfg, newCfg), configStore (srv w'), fired)
    /\ o = Some oldCfg /\ n = Some newCfg
    /\ Config_ w' = newCfg
    /\ fired = map (fun id => EvListener id oldCfg newCfg) (storeListeners (configStore (srv w)))
    /\ clusterAnswer w (configStore (srv w')) oldCfg newCfg send = None
    /\ trace w' = trace w ++ EvStoreSet newCfg :: fired ++ metricsCalls w newCfg
                          ++ clusterCalls w (configStore (srv w')) oldCfg newCfg send.
Proof.
  intros R.
  destruct (Store_Set newCfg (configStore (srv w)))
    as [[[[oldCfg newCfg']|err] st] fired] eqn:E.
  - destruct (SaveConfig_run_success newCfg send w _ _ _ _ E) as (w1 & R1 & Hst & Htr).
    rewrite R1 in R.
    destruct (Store_Set_success _ _ _ _ _ _ E) as (_ & -> & Hg & Hf).
    destruct (clusterAnswer w st oldCfg newCfg send) eqn:Ea; inversion R; subst.
    do 2 eexists. rewrite Ea. repeat split; eauto.
  - destruct (SaveConfig_run_failure newCfg send w _ _ _ E) as (w1 & R1 & _).
    rewrite R1 in R. inversion R.
Qed.

Lemma filter_listeners_metrics (oldCfg newCfg : Config) (ids : list string) :
  List.filter isMetricsEvent (map (fun id => EvListener id oldCfg newCfg) ids) = [].
Proof. induction ids; simpl; auto. Qed.

Lemma filter_listeners_cluster (oldCfg newCfg : Config) (ids : list string) :
  List.filter isConfigChanged (map (fun id => EvListener id oldCfg newCfg) ids) = [].
Proof. induction ids; simpl; auto. Qed.

Lemma filter_metricsCalls_cluster (w : World Env) (cfg : Config) :
  List.filter isConfigChanged (metricsCalls w cfg) = [].
Proof.
  unfold metricsCalls.
  destruct (startMetrics (srv w) && Enable (cfgMetricsSettings cfg));
    [destruct (Metrics (srv w))|]; reflexivity.
Qed.

Lemma filter_metricsCalls_metrics (w : World Env) (cfg : Config) :
  List.filter isMetricsEvent (metricsCalls w cfg) = metricsCalls w cfg.
Proof.
  unfold metricsCalls.
  destruct (startMetrics (srv w) && Enable (cfgMetricsSettings cfg));
    [destruct (Metrics (srv w))|]; reflexivity.
Qed.

Lemma filter_clusterCalls_metrics (w : World Env) (st : Store) (oldCfg newCfg : Config)
  (send : bool) :
  List.filter isMetricsEvent (clusterCalls w st oldCfg newCfg send) = [].
Proof. unfold clusterCalls. destruct (Cluster (srv w)); reflexivity. Qed.

(** ** [regenerateClientConfig], in full *)

Lemma regenerateClientConfig_run (w : World Env) :
  let generated :=
    GenerateClientConfig (Config_ w) (TelemetryId (srv w)) (srvLicense (srv w)) in
  let limited :=
    GenerateLimitedClientConfig (Config_ w) (TelemetryId (srv w)) (srvLicense (srv w)) in
  let enabled := String.eqb (mapIndex generated "EnableCustomTermsOfService") "true" in
  let looked := if enabled then Some (fst (TermsOfService_GetLatest true (env w)))
                else None in
  exists w',
    regenerateClientConfig w
      = (if usableKey (asymmetricSigningKey (ch w)) then Done tt else Panic, w')
    /\ srv w' = srv w
    /\ postActionCookieSecret (ch w') = postActionCookieSecret (ch w)
    /\ asymmetricSigningKey (ch w') = asymmetricSigningKey (ch w)
    /\ (if usableKey (asymmetricSigningKey (ch w))
        then clientConfig (ch w') =
               Some (withPublicKey (asymmetricSigningKey (ch w))
                       (withTermsOfService looked generated))
             /\ limitedClientConfig (ch w') =
                  Some (withPublicKey (asymmetricSigningKey (ch w))
                          (withTermsOfService looked limited))
             /\ clientConfigHash (ch w') =
                  Some (Sprintf_x (md5_Sum (json_Marshal_map
                          (withPublicKey (asymmetricSigningKey (ch w))
                             (withTermsOfService looked generated)))))
        else ch w' = ch w)
    /\ env w' = (if enabled then snd (TermsOfService_GetLatest true (env w)) else env w)
    /\ trace w' = trace w ++ (if enabled then [EvGetLatestTermsOfService] else []).
Proof.
  unfold regenerateClientConfig. run.
  destruct (String.eqb _ "true"); simpl;
    [destruct (TermsOfService_GetLatest true (env w)) as [[tos|err] env']; simpl|];
    unfold AsymmetricSigningKey; simpl;
    destruct (asymmetricSigningKey (ch w)) as [key|] eqn:Ek; simpl;
    try destruct (hasCoordinates (PublicKey key)) eqn:Hco; simpl;
    eexists; (split; [reflexivity|]); simpl;
    repeat split; rewrite ?Ek; try reflexivity; symmetry; apply app_nil_r.
Qed.

(** A first read that yields no secret leaves the local pointer nil. *)
Lemma first_read_yields_nothing {A : Type} (unmarshal : string -> option A + error)
  (r1 : System + error) :
  yieldsNoSecret unmarshal r1 = true ->
  (match r1 with
   | inl value => decodeOrFail unmarshal value
   | inr _ => ret None
   end) = (ret None : M Env (option A)).
Proof.
  intros Hn. destruct r1 as [value|e]; [|reflexivity].
  unfold yieldsNoSecret in Hn. unfold decodeOrFail.
  destruct (unmarshal (Value value)) as [[s|]|]; try discriminate.
  reflexivity.
Qed.

(** ** The secret coordinator *)


(** C4: with no signing key cached, when the persisted record is found,
    decodes, and names a curve other than P-256,
    [ensureAsymmetricSigningKey] returns the error that [fmt.Errorf] makes of
    "unknown curve: " followed by the name; its only outgoing call is the
    read (no key is generated, nothing is saved) and no key is cached. *)
Theorem ensureAsymmetricSigningKey_unknown_curve (w : World Env) (value : System)
  (env1 : Env) (k : SystemAsymmetricSigningKey) (ek : SystemECDSAKey) :
  AsymmetricSigningKey w = None ->
  System_GetByName SystemAsymmetricSigningKeyKey (env w) = (inl value, env1) ->
  json_Unmarshal_key (Value value) = inl (Some k) ->
  ECDSAKey k = Some ek ->
  Curve ek <> "P-256" ->
  exists w',
    ensureAsymmetricSigningKey w =
      (Fail (fmt_Errorf ("unknown curve: " +:+ Curve ek)), w')
    /\ AsymmetricSigningKey w' = None
    /\ ch w' = ch w
    /\ newEvents w w' = [EvGetByName SystemAsymmetricSigningKeyKey].
Proof.
  intros Hc Hr Hd Hk Hcurve.
  unfold ensureAsymmetricSigningKey. run. rewrite Hc. simpl.
  rewrite Hr. simpl. unfold decodeOrFail. rewrite Hd. simpl. rewrite Hk.
  destruct (String.eqb_spec (Curve ek) "P-256") as [Ec|_]; [contradiction|].
  eexists. split; [reflexivity|]. split; [exact Hc|]. split; [reflexivity|].
  now apply newEvents_app.
Qed.

(** ** The configuration service *)

(** C5: on a read-only store [UpdateConfig] returns at once, whatever the
    mutator: the world is untouched, so the active document is unchanged, and
    the call made nothing outside (no listener fired, the mutator and the
    store's [Set] were not invoked). *)
Theorem UpdateConfig_read_only (f : Config -> Config) (w : World Env) :
  Store_IsReadOnly (configStore (srv w)) = true ->
  UpdateConfig f w = (Done tt, w)
  /\ Config_ (snd (UpdateConfig f w)) = Config_ w
  /\ newEvents w (snd (UpdateConfig f w)) = [].
Proof.
  intros RO.
  assert (E : UpdateConfig f w = (Done tt, w)).
  { unfold UpdateConfig. run. rewrite RO. reflexivity. }
  rewrite E. simpl. repeat split.
  apply newEvents_app. symmetry. apply app_nil_r.
Qed.

(** C6: when the store's [Set] fails, [SaveConfig] returns an [AppError]: with
    status 403 and id [ent.cluster.save_config.error] if the cause of the
    failure is the read-only error, with status 500 otherwise.  The active
    document is unchanged and the call to [Set] is the only call made, so the
    cluster is not notified. *)
Theorem SaveConfig_Set_failure (newCfg : Config) (send : bool) (w : World Env)
  (err : error) (st : Store) (fired : list Event) :
  Store_Set newCfg (configStore (srv w)) = (inr err, st, fired) ->
  exists appErr w',
    SaveConfig newCfg send w = (Done (None, None, Some appErr), w')
    /\ (Cause err = ErrReadOnlyConfiguration ->
        StatusCode appErr = 403 /\ Id appErr = "ent.cluster.save_config.error")
    /\ (Cause err <> ErrReadOnlyConfiguration -> StatusCode appErr = 500)
    /\ Config_ w' = Config_ w
    /\ newEvents w w' = [EvStoreSet newCfg]
    /\ List.filter isConfigChanged (newEvents w w') = [].
Proof.
  intros E.
  destruct (SaveConfig_run_failure newCfg send w _ _ _ E) as (w' & R & Hst & Htr).
  eexists; exists w'. split; [exact R|].
  rewrite (newEvents_app _ _ _ Htr). unfold Config_. rewrite Hst.
  unfold causeIsReadOnly.
  split; [|split; [|split; [|split]]]; try reflexivity.
  - intros C. rewrite C. split; reflexivity.
  - intros C. destruct (Cause err); try reflexivity. congruence.
Qed.

(** C2: when [Set] succeeds on the submitted document and the cluster's
    [ConfigChanged] reports an error, [SaveConfig(validDocument, true)]
    returns that error, and the document is installed all the same: [Config]
    afterwards returns [validDocument]. *)
Theorem SaveConfig_notify_failure_no_rollback (validDocument : Config) (w : World Env)
  (oldCfg newCfg : Config) (st : Store) (fired : list Event)
  (cluster : ClusterInterface) (err : AppError) :
  Store_Set validDocument (configStore (srv w)) = (inl (oldCfg, newCfg), st, fired) ->
  Cluster (srv w) = Some cluster ->
  ConfigChanged cluster (Store_RemoveEnvironmentOverrides st oldCfg)
                (Store_RemoveEnvironmentOverrides st newCfg) true = Some err ->
  exists r w',
    SaveConfig validDocument true w = (Done r, w')
    /\ snd r = Some err
    /\ Config_ w' = validDocument.
Proof.
  intros E Hc Hn.
  destruct (SaveConfig_run_success validDocument true w _ _ _ _ E) as (w' & R & Hst & _).
  destruct (Store_Set_success _ _ _ _ _ _ E) as (_ & _ & Hg & _).
  unfold clusterAnswer in R. rewrite Hc, Hn in R.
  do 2 eexists. split; [exact R|]. split; [reflexivity|].
  unfold Config_. now rewrite Hst.
Qed.

(** C10: when the swap succeeds and the cluster's [ConfigChanged] fails,
    [SaveConfig] returns nil for both documents next to the error, although
    the new document is by then the active one. *)
Theorem SaveConfig_notify_failure_returns_nil (newCfg : Config) (send : bool)
  (w : World Env) (oldCfg newCfg' : Config) (st : Store) (fired : list Event)
  (cluster : ClusterInterface) (err : AppError) :
  Store_Set newCfg (configStore (srv w)) = (inl (oldCfg, newCfg'), st, fired) ->
  Cluster (srv w) = Some cluster ->
  ConfigChanged cluster (Store_RemoveEnvironmentOverrides st oldCfg)
                (Store_RemoveEnvironmentOverrides st newCfg') send = Some err ->
  exists w',
    SaveConfig newCfg send w = (Done (None, None, Some err), w')
    /\ Config_ w' = newCfg'.
Proof.
  intros E Hc Hn.
  destruct (SaveConfig_run_success newCfg send w _ _ _ _ E) as (w' & R & Hst & _).
  destruct (Store_Set_success _ _ _ _ _ _ E) as (_ & -> & Hg & _).
  unfold clusterAnswer in R. rewrite Hc, Hn in R.
  exists w'. split; [exact R|]. unfold Config_. now rewrite Hst.
Qed.

(** C7: a successful [SaveConfig] with a cluster configured notifies it once,
    and the two documents it passes are the returned old and new documents
    after [RemoveEnvironmentOverrides]; whatever stripping guarantees of a
    document therefore holds of both propagated documents. *)
Theorem SaveConfig_strips_environment_overrides (newCfg : Config) (send : bool)
  (w w' : World Env) (oldCfg newCfg' : Config) (cluster : ClusterInterface) :
  SaveConfig newCfg send w = (Done (Some oldCfg, Some newCfg', None), w') ->
  Cluster (srv w) = Some cluster ->
  List.filter isConfigChanged (newEvents w w') =
    [EvConfigChanged (Store_RemoveEnvironmentOverrides (configStore (srv w')) oldCfg)
                     (Store_RemoveEnvironmentOverrides (configStore (srv w')) newCfg')
                     send]
  /\ forall clean : Config -> Prop,
       (forall cfg, clean (Store_RemoveEnvironmentOverrides (configStore (srv w')) cfg)) ->
       forall o n s, In (EvConfigChanged o n s) (newEvents w w') -> clean o /\ clean n.
Proof.
  intros R Hc.
  destruct (SaveConfig_success_inv _ _ _ _ _ _ R)
    as (old & fired & E & [= <-] & [= ->] & _ & Hf & _ & Htr).
  rewrite (newEvents_app _ _ _ Htr).
  assert (F : List.filter isConfigChanged
                (EvStoreSet newCfg :: fired ++ metricsCalls w newCfg
                   ++ clusterCalls w (configStore (srv w')) oldCfg newCfg send)
              = clusterCalls w (configStore (srv w')) oldCfg newCfg send).
  { simpl. rewrite !List.filter_app, Hf, filter_listeners_cluster,
      filter_metricsCalls_cluster. simpl.
    unfold clusterCalls. rewrite Hc. reflexivity. }
  split.
  - rewrite F. unfold clusterCalls. now rewrite Hc.
  - intros clean Hclean o n s Hin.
    assert (Hin' : In (EvConfigChanged o n s)
                      (clusterCalls w (configStore (srv w')) oldCfg newCfg send)).
    { rewrite <- F. apply List.filter_In. split; [exact Hin | reflexivity]. }
    unfold clusterCalls in Hin'. rewrite Hc in Hin'.
    destruct Hin' as [[= <- <- <-]|[]]. split; apply Hclean.
Qed.

(** C9 (as amended): a successful [SaveConfig] toggles the metrics subsystem
    on the server's [startMetrics] flag together with [MetricsSettings.Enable]
    of the newly installed document: when both hold, [Metrics.Register] is
    called if a metrics implementation is present and the metrics server is
    set up; otherwise the metrics server is stopped. *)
Theorem SaveConfig_toggles_metrics (newCfg : Config) (send : bool)
  (w w' : World Env) (o n : option Config) :
  SaveConfig newCfg send w = (Done (o, n, None), w') ->
  List.filter isMetricsEvent (newEvents w w') =
    if startMetrics (srv w) && Enable (cfgMetricsSettings (Config_ w'))
    then match Metrics (srv w) with
         | Some _ => [EvMetricsRegister; EvSetupMetricsServer]
         | None => [EvSetupMetricsServer]
         end
    else [EvStopMetricsServer].
Proof.
  intros R.
  destruct (SaveConfig_success_inv _ _ _ _ _ _ R)
    as (old & fired & E & _ & _ & Hg & Hf & _ & Htr).
  rewrite (newEvents_app _ _ _ Htr), Hg. simpl.
  rewrite !List.filter_app, Hf, filter_listeners_metrics,
    filter_metricsCalls_metrics, filter_clusterCalls_metrics, app_nil_r.
  reflexivity.
Qed.

(** ** The client-config snapshot *)

(** C3: [regenerateClientConfig] returns whenever the cached signing key, if
    there is one, has its coordinates, and after every regeneration
    [ClientConfigHash] is the hexadecimal MD5 digest of the JSON serialization
    of the very map [ClientConfig] returns. *)
Theorem regenerateClientConfig_hash_consistent (w : World Env) :
  (usableKey (AsymmetricSigningKey w) = true ->
   exists w', regenerateClientConfig w = (Done tt, w'))
  /\ forall w' : World Env,
       regenerateClientConfig w = (Done tt, w') ->
       exists m,
         ClientConfig w' = (Done m, w')
         /\ ClientConfigHash w'
            = (Done (Sprintf_x (md5_Sum (json_Marshal_map m))), w').
Proof.
  destruct (regenerateClientConfig_run w) as (w1 & R & _ & _ & _ & Hcells & _).
  unfold AsymmetricSigningKey. split.
  - intros Hu. rewrite Hu in R. eauto.
  - intros w' R'. rewrite R in R'.
    destruct (usableKey (asymmetricSigningKey (ch w))); [|discriminate].
    injection R' as <-. destruct Hcells as (Hcc & _ & Hh).
    eexists. unfold ClientConfig, ClientConfigHash. run. rewrite Hcc, Hh.
    split; reflexivity.
Qed.

End Properties.

(** ** Message export *)

(** C8: [HandleMessageExportConfig] rewrites nothing but
    [MessageExportSettings.ExportFromTimestamp] of [cfg]: when the export flag
    goes from false (in [appCfg]) to true (in [cfg]) and the timestamp is 0 it
    becomes the current time; when the flag goes from true to false it becomes
    0; when the flag is the same in both documents [cfg] is left as it is. *)
Theorem HandleMessageExportConfig_rewrites_timestamp (now : Z) (cfg appCfg : Config) :
  let out := HandleMessageExportConfig now cfg appCfg in
  let enabled c := EnableExport (cfgMessageExportSettings c) in
  let from c := ExportFromTimestamp (cfgMessageExportSettings c) in
  out = setExportFromTimestamp (from out) cfg
  /\ (enabled appCfg = false -> enabled cfg = true -> from cfg = 0 -> from out = now)
  /\ (enabled appCfg = true -> enabled cfg = false -> from out = 0)
  /\ (enabled cfg = enabled appCfg -> out = cfg).
Proof.
  destruct cfg as [ss ms [en ts] other], appCfg as [ss' ms' [en' ts'] other'].
  unfold HandleMessageExportConfig, setExportFromTimestamp. simpl.
  repeat split.
  - destruct en, en'; simpl; try reflexivity; destruct (ts =? 0); reflexivity.
  - intros -> -> ->. reflexivity.
  - intros -> ->. reflexivity.
  - intros ->. destruct en'; reflexivity.
Qed.

(** * The operations on a concrete node *)

Import Sample.




(** A node without a cached key that finds a record naming P-384, and one
    that finds a record whose curve name holds a verb of [fmt]. *)
Lemma ensureAsymmetricSigningKey_unknown_curve_witness :
  (let w := node false false None emptyChannels
                 (envWith SystemAsymmetricSigningKeyKey "P-384") in
   fst (ensureAsymmetricSigningKey w) = Fail (errorString "unknown curve: P-384")
   /\ AsymmetricSigningKey (snd (ensureAsymmetricSigningKey w)) = None
   /\ newEvents w (snd (ensureAsymmetricSigningKey w))
      = [EvGetByName SystemAsymmetricSigningKeyKey])
  /\
  (let w := node false false None emptyChannels
                 (envWith SystemAsymmetricSigningKeyKey "P-%d") in
   fst (ensureAsymmetricSigningKey w)
     = Fail (errorString "unknown curve: P-%!d(MISSING)")
   /\ AsymmetricSigningKey (snd (ensureAsymmetricSigningKey w)) = None
   /\ newEvents w (snd (ensureAsymmetricSigningKey w))
      = [EvGetByName SystemAsymmetricSigningKeyKey]).
Proof.
  split; intros w.
  - edestruct (ensureAsymmetricSigningKey_unknown_curve w)
      as (w' & R & Hk & _ & Hev);
      [reflexivity | reflexivity | reflexivity | reflexivity | discriminate |].
    rewrite R. simpl. split; [reflexivity|]. split; [exact Hk | exact Hev].
  - edestruct (ensureAsymmetricSigningKey_unknown_curve w)
      as (w' & R & Hk & _ & Hev);
      [reflexivity | reflexivity | reflexivity | reflexivity | discriminate |].
    rewrite R. simpl. split; [reflexivity|]. split; [exact Hk | exact Hev].
Defined.

(** [regenerateClientConfig] on a node with a cached key, and the two getters
    afterwards. *)
Lemma regenerateClientConfig_hash_consistent_witness :
  let w := node false false None cachedKeyChannels emptyEnv in
  exists w' m,
    regenerateClientConfig w = (Done tt, w')
    /\ ClientConfig w' = (Done m, w')
    /\ ClientConfigHash w' = (Done (Sprintf_x (md5_Sum (json_Marshal_map m))), w').
Proof.
  intros w.
  destruct (regenerateClientConfig_hash_consistent w) as [Hret Hhash].
  destruct (Hret eq_refl) as [w' R].
  destruct (Hhash w' R) as (m & Hc & Hh).
  exists w', m. split; [exact R|]. split; [exact Hc | exact Hh].
Defined.

(** [UpdateConfig] on a node whose store is read-only. *)
Lemma UpdateConfig_read_only_witness :
  let w := node true true (Some healthyCluster) emptyChannels emptyEnv in
  let f := setExportFromTimestamp 42 in
  Store_IsReadOnly (configStore (srv w)) = true
  /\ UpdateConfig f w = (Done tt, w).
Proof.
  intros w f. split; [reflexivity|].
  apply (UpdateConfig_read_only f w). reflexivity.
Defined.

(** [SaveConfig] on a read-only store (403) and with a document the validator
    rejects (500). *)
Lemma SaveConfig_Set_failure_witness :
  (let w := node true true (Some healthyCluster) emptyChannels emptyEnv in
   exists appErr w',
     SaveConfig (doc true false 0) true w = (Done (None, None, Some appErr), w')
     /\ StatusCode appErr = 403 /\ Config_ w' = Config_ w)
  /\
  (let w := node true false (Some healthyCluster) emptyChannels emptyEnv in
   exists appErr w',
     SaveConfig (doc true false (-1)) true w = (Done (None, None, Some appErr), w')
     /\ StatusCode appErr = 500 /\ Config_ w' = Config_ w).
Proof.
  split; intros w.
  - edestruct (SaveConfig_Set_failure (doc true false 0) true w)
      as (appErr & w' & R & H403 & _ & Hcfg & _); [reflexivity|].
    exists appErr, w'. split; [exact R|]. split; [apply H403; reflexivity | exact Hcfg].
  - edestruct (SaveConfig_Set_failure (doc true false (-1)) true w)
      as (appErr & w' & R & _ & H500 & Hcfg & _); [reflexivity|].
    exists appErr, w'. split; [exact R|]. split; [apply H500; discriminate | exact Hcfg].
Defined.

(** [SaveConfig] with broadcast on a node whose cluster transport fails. *)
Lemma SaveConfig_notify_failure_no_rollback_witness :
  let w := node true false (Some failingCluster) emptyChannels emptyEnv in
  Config_ w = doc false false 0
  /\ exists r w',
       SaveConfig (doc true false 0) true w = (Done r, w')
       /\ snd r = Some (NewAppError "ConfigChanged" "ent.cluster.config_changed.error" "" 500)
       /\ Config_ w' = doc true false 0.
Proof.
  intros w. split; [reflexivity|].
  eapply (SaveConfig_notify_failure_no_rollback (doc true false 0) w);
    reflexivity.
Defined.

(** The same failing transport, with the broadcast flag off. *)
Lemma SaveConfig_notify_failure_returns_nil_witness :
  let w := node true false (Some failingCluster) emptyChannels emptyEnv in
  exists w',
    SaveConfig (doc true true 7) false w
      = (Done (None, None,
               Some (NewAppError "ConfigChanged" "ent.cluster.config_changed.error" "" 500)),
         w')
    /\ Config_ w' = doc true true 7.
Proof.
  intros w.
  eapply (SaveConfig_notify_failure_returns_nil (doc true true 7) false w);
    reflexivity.
Defined.

(** On the concrete node, stripping removes the overridden path. *)
Lemma simRemoveEnvOverrides_clean (cfg : Config) :
  OtherSettings (Store_RemoveEnvironmentOverrides (store false) cfg)
    !! "SqlSettings.DataSource" = None.
Proof.
  unfold Store_RemoveEnvironmentOverrides. simpl.
  apply lookup_difference_None. right. eexists. apply lookup_singleton_eq.
Qed.

(** A successful [SaveConfig] on a node with one environment override: the
    overridden path is in the submitted document and in neither propagated
    document. *)
Lemma SaveConfig_strips_environment_overrides_witness :
  let w := node true false (Some healthyCluster) emptyChannels emptyEnv in
  let w' := snd (SaveConfig (doc true false 0) true w) in
  OtherSettings (doc true false 0) !! "SqlSettings.DataSource" = Some "postgres://env"
  /\ forall o n s, In (EvConfigChanged o n s) (newEvents w w') ->
       OtherSettings o !! "SqlSettings.DataSource" = None
       /\ OtherSettings n !! "SqlSettings.DataSource" = None.
Proof.
  intros w w'. split; [reflexivity|].
  apply (proj2 (SaveConfig_strips_environment_overrides
                  (doc true false 0) true w w' (doc false false 0) (doc true false 0)
                  healthyCluster eq_refl eq_refl)
               (fun cfg => OtherSettings cfg !! "SqlSettings.DataSource" = None)).
  intros cfg. apply simRemoveEnvOverrides_clean.
Defined.

(** C9, the claim as first stated, fails on a server started without
    metrics: the save succeeds, metrics are enabled in the installed
    document, and the metrics server is stopped, not set up. *)
Lemma SaveConfig_toggles_metrics_counterexample :
  let w := node false false None emptyChannels emptyEnv in
  let run := SaveConfig (doc true false 0) true w in
  fst run = Done (Some (doc false false 0), Some (doc true false 0), None)
  /\ Enable (cfgMetricsSettings (Config_ (snd run))) = true
  /\ startMetrics (srv w) = false
  /\ List.filter isMetricsEvent (newEvents w (snd run)) = [EvStopMetricsServer]
  /\ ~ In EvSetupMetricsServer (newEvents w (snd run)).
Proof.
  vm_compute. repeat (split; [reflexivity|]).
  intros [H|[H|[H|[]]]]; discriminate.
Qed.

(** A successful [SaveConfig] that enables metrics on a server started with
    metrics. *)
Lemma SaveConfig_toggles_metrics_witness :
  let w := node true false None emptyChannels emptyEnv in
  let run := SaveConfig (doc true false 0) true w in
  fst run = Done (Some (doc false false 0), Some (doc true false 0), None)
  /\ List.filter isMetricsEvent (newEvents w (snd run))
     = [EvMetricsRegister; EvSetupMetricsServer].
Proof.
  intros w run. split; [reflexivity|].
  apply (SaveConfig_toggles_metrics (doc true false 0) true w (snd run)
           (Some (doc false false 0)) (Some (doc true false 0))).
  reflexivity.
Defined.

(** The three cases of [HandleMessageExportConfig] on concrete documents. *)
Lemma HandleMessageExportConfig_rewrites_timestamp_witness :
  ExportFromTimestamp
    (cfgMessageExportSettings
       (HandleMessageExportConfig 1700000000000 (doc false true 0) (doc false false 0)))
    = 1700000000000
  /\ ExportFromTimestamp
       (cfgMessageExportSettings
          (HandleMessageExportConfig 1700000000000 (doc false false 99) (doc false true 99)))
     = 0
  /\ HandleMessageExportConfig 1700000000000 (doc false true 99) (doc true true 5)
     = doc false true 99.
Proof.
  split; [|split].
  - apply (proj1 (proj2 (HandleMessageExportConfig_rewrites_timestamp
                           1700000000000 (doc false true 0) (doc false false 0))));
      reflexivity.
  - apply (proj1 (proj2 (proj2 (HandleMessageExportConfig_rewrites_timestamp
                                  1700000000000 (doc false false 99) (doc false true 99)))));
      reflexivity.
  - apply (proj2 (proj2 (proj2 (HandleMessageExportConfig_rewrites_timestamp
                                  1700000000000 (doc false true 99) (doc true true 5)))));
      reflexivity.
Defined.

(** * Further properties *)

Section MoreProperties.

Context {Env : Type} {ext : External Env} {lib : Library}.

Ltac run :=
  unfold bind, get, ret, emit, emitAll, setConfigStore, call, fail, panic,
    modifyChannels, setChannels, mlog_Warn, mlog_Error; simpl.

Ltac solve_trace :=
  simpl;
  first [ reflexivity
        | symmetry; apply app_nil_r
        | repeat rewrite <- app_assoc; simpl; reflexivity ].

(** ** The secret coordinator, on every path *)

(** Case analysis along one run: split on the answer of the next call. *)
Ltac next_call H :=
  match type of H with
  | context [System_GetByName ?a ?b] =>
      destruct (System_GetByName a b) as [[?value|?err] ?env] eqn:?
  | context [rand_Read ?a ?b] =>
      destruct (rand_Read a b) as [[?bytes|?err] ?env] eqn:?
  | context [ecdsa_GenerateKey ?a ?b] =>
      destruct (ecdsa_GenerateKey a b) as [[?newECDSAKey|?err] ?env] eqn:?
  | context [System_Save ?a ?b] =>
      destruct (System_Save a b) as [[?err|] ?env] eqn:?
  | context [json_Unmarshal_secret ?a] =>
      destruct (json_Unmarshal_secret a) as [[?s|]|?err] eqn:?
  | context [json_Marshal_secret ?a] =>
      destruct (json_Marshal_secret a) as [?v|?err] eqn:?
  | context [json_Unmarshal_key ?a] =>
      destruct (json_Unmarshal_key a) as [[?k|]|?err] eqn:?
  | context [json_Marshal_key ?a] =>
      destruct (json_Marshal_key a) as [?v|?err] eqn:?
  | context [ECDSAKey ?a] =>
      destruct (ECDSAKey a) as [?ek|] eqn:?
  | context [String.eqb (Curve ?a) ?b] =>
      destruct (String.eqb (Curve a) b) eqn:?
  end; simpl in H.

Ltac regenerated H :=
  match type of H with
  | regenerateClientConfig ?w1 = _ =>
      let w2 := fresh "w2" in
      let R2 := fresh "R2" in
      let Hcells := fresh "Hcells" in
      destruct (regenerateClientConfig_run w1)
        as (w2 & R2 & ?Hsrv & ?Hsecret & ?Hkey & Hcells & ?Henv & ?Htrace);
      rewrite R2 in H; simpl in *;
      match type of Hcells with
      | if ?c then _ else _ =>
          destruct c eqn:?Hco; [destruct Hcells as (?Hcc & ?Hlc & ?Hhash)|]
      end
  end.

Ltac paths H :=
  unfold decodeOrFail in H; simpl in H; repeat next_call H; try regenerated H;
  injection H as <- <-.

(** X1: no run of either operation touches the server's fields, and a run
    that returns an error leaves every cache as it was.  A run of
    [ensurePostActionCookieSecret] that panics leaves them as well; a run of
    [ensureAsymmetricSigningKey] that panics leaves the cookie secret and the
    three client-config cells as they were. *)
Theorem ensure_failure_keeps_caches :
  (forall (w w' : World Env) (out : res unit),
      ensurePostActionCookieSecret w = (out, w') ->
      srv w' = srv w /\ (out <> Done tt -> ch w' = ch w))
  /\
  (forall (w w' : World Env) (out : res unit),
      ensureAsymmetricSigningKey w = (out, w') ->
      srv w' = srv w
      /\ (forall err, out = Fail err -> ch w' = ch w)
      /\ (out = Panic ->
          postActionCookieSecret (ch w') = postActionCookieSecret (ch w)
          /\ clientConfig (ch w') = clientConfig (ch w)
          /\ limitedClientConfig (ch w') = limitedClientConfig (ch w)
          /\ clientConfigHash (ch w') = clientConfigHash (ch w))).
Proof.
  split; intros w w' out.
  - unfold ensurePostActionCookieSecret. run.
    destruct (postActionCookieSecret (ch w)) eqn:Hc; simpl; intros R.
    + injection R as <- <-. auto.
    + paths R; (split; [reflexivity|]); intros Hne; try reflexivity; congruence.
  - unfold ensureAsymmetricSigningKey, AsymmetricSigningKey. run.
    destruct (asymmetricSigningKey (ch w)) eqn:Hc; simpl; intros R.
    + injection R as <- <-. split; [reflexivity|]. split; [reflexivity|].
      discriminate.
    + paths R; (split; [assumption || reflexivity|]);
        (split; [intros e He; try discriminate He; reflexivity|]);
        intros Hp; try discriminate Hp;
        try (repeat split; reflexivity);
        rewrite Hcells; repeat split; reflexivity.
Qed.

Ltac events :=
  try match goal with
      | Ht : trace _ = _ ++ (if ?c then _ else _) |- _ => destruct c; simpl in Ht
      end;
  erewrite newEvents_app
    by first [ match goal with Ht : trace _ = _ |- _ => rewrite Ht end; solve_trace
             | solve_trace ].

(** X2: the traffic of either operation with the persistent store is bounded:
    on every run at most two reads and at most one insert, each under the
    key of the secret. *)
Theorem ensure_store_traffic_bounded :
  (forall (w w' : World Env) (out : res unit),
      ensurePostActionCookieSecret w = (out, w') ->
      (length (List.filter isGetByName (newEvents w w')) <= 2)%nat
      /\ (length (List.filter isSave (newEvents w w')) <= 1)%nat
      /\ forallb (concernsKey SystemPostActionCookieSecretKey) (newEvents w w') = true)
  /\
  (forall (w w' : World Env) (out : res unit),
      ensureAsymmetricSigningKey w = (out, w') ->
      (length (List.filter isGetByName (newEvents w w')) <= 2)%nat
      /\ (length (List.filter isSave (newEvents w w')) <= 1)%nat
      /\ forallb (concernsKey SystemAsymmetricSigningKeyKey) (newEvents w w') = true).
Proof.
  split; intros w w' out.
  - unfold ensurePostActionCookieSecret. run.
    destruct (postActionCookieSecret (ch w)) eqn:Hc; simpl; intros R.
    + injection R as <- <-. events. simpl. repeat split; lia.
    + paths R; events; simpl; repeat split; lia.
  - unfold ensureAsymmetricSigningKey, AsymmetricSigningKey. run.
    destruct (asymmetricSigningKey (ch w)) eqn:Hc; simpl; intros R.
    + injection R as <- <-. events. simpl. repeat split; lia.
    + paths R; events; simpl; repeat split; lia.
Qed.

(** X3: what either operation inserts is the marshalled form of the secret it
    has generated in that very run, right after its first read: the bytes
    [rand.Read] returned, or the key [ecdsa.GenerateKey] returned.  The
    record is inserted under the key of the secret, the insert comes third,
    after the read and the generation, and nothing else is ever written. *)
Theorem ensure_saves_only_fresh_secret :
  (forall (w w' : World Env) (out : res unit) (sys : System),
      ensurePostActionCookieSecret w = (out, w') ->
      In (EvSave sys) (newEvents w w') ->
      Name sys = SystemPostActionCookieSecretKey
      /\ (exists bytes env2,
             rand_Read 32 (snd (System_GetByName SystemPostActionCookieSecretKey (env w)))
               = (inl bytes, env2)
             /\ json_Marshal_secret {| Secret := Some bytes |} = inl (Value sys))
      /\ exists rest,
           newEvents w w' =
             EvGetByName SystemPostActionCookieSecretKey :: EvRandRead 32
               :: EvSave sys :: rest)
  /\
  (forall (w w' : World Env) (out : res unit) (sys : System),
      ensureAsymmetricSigningKey w = (out, w') ->
      In (EvSave sys) (newEvents w w') ->
      Name sys = SystemAsymmetricSigningKeyKey
      /\ (exists newECDSAKey env2,
             ecdsa_GenerateKey P256
               (snd (System_GetByName SystemAsymmetricSigningKeyKey (env w)))
               = (inl newECDSAKey, env2)
             /\ json_Marshal_key (newSigningKeyRecord newECDSAKey) = inl (Value sys))
      /\ exists rest,
           newEvents w w' =
             EvGetByName SystemAsymmetricSigningKeyKey :: EvGenerateKey
               :: EvSave sys :: rest).
Proof.
  split; intros w w' out sys.
  - unfold ensurePostActionCookieSecret. run.
    destruct (postActionCookieSecret (ch w)) eqn:Hc; simpl; intros R.
    + injection R as <- <-. events. intros [].
    + paths R; events; simpl; intros Hin;
        repeat (destruct Hin as [Hin|Hin]; [try discriminate|]); try contradiction;
        injection Hin as <-; (split; [reflexivity|]);
        (split; [|eauto]); simpl; eauto.
  - unfold ensureAsymmetricSigningKey, AsymmetricSigningKey. run.
    destruct (asymmetricSigningKey (ch w)) eqn:Hc; simpl; intros R.
    + injection R as <- <-. events. intros [].
    + paths R; events; simpl; intros Hin;
        repeat (destruct Hin as [Hin|Hin]; [try discriminate|]); try contradiction;
        injection Hin as <-; (split; [reflexivity|]);
        (split; [|eauto]); simpl; eauto.
Qed.

(** ** The secret coordinator, path by path *)


(** X5: a persisted record that does not decode is a hard error: the decode
    error is returned after the one read, nothing is generated or inserted in
    its place, and nothing is cached. *)
Theorem ensure_corrupt_record_is_error :
  (forall (w : World Env) (value : System) (env1 : Env) (err : error),
      postActionCookieSecret (ch w) = None ->
      System_GetByName SystemPostActionCookieSecretKey (env w) = (inl value, env1) ->
      json_Unmarshal_secret (Value value) = inr err ->
      exists w',
        ensurePostActionCookieSecret w = (Fail err, w')
        /\ ch w' = ch w
        /\ newEvents w w' = [EvGetByName SystemPostActionCookieSecretKey])
  /\
  (forall (w : World Env) (value : System) (env1 : Env) (err : error),
      AsymmetricSigningKey w = None ->
      System_GetByName SystemAsymmetricSigningKeyKey (env w) = (inl value, env1) ->
      json_Unmarshal_key (Value value) = inr err ->
      exists w',
        ensureAsymmetricSigningKey w = (Fail err, w')
        /\ ch w' = ch w
        /\ newEvents w w' = [EvGetByName SystemAsymmetricSigningKeyKey]).
Proof.
  split.
  - intros w value env1 err Hc Hr Hd.
    unfold ensurePostActionCookieSecret. run. rewrite Hc. simpl. rewrite Hr. simpl.
    unfold decodeOrFail. rewrite Hd. simpl.
    eexists. split; [reflexivity|]. split; [reflexivity|]. now events.
  - intros w value env1 err Hc Hr Hd.
    unfold ensureAsymmetricSigningKey. run. rewrite Hc. simpl. rewrite Hr. simpl.
    unfold decodeOrFail. rewrite Hd. simpl.
    eexists. split; [reflexivity|]. split; [reflexivity|]. now events.
Qed.

(** X6: without a race, the secret generated by the node becomes the secret:
    when the first read yields none and the insert succeeds, the operation
    returns nil and caches exactly what it generated (the 32 random bytes, or
    the generated key), and it does not read the store a second time. *)
Theorem ensure_generates_and_caches :
  (forall (w : World Env) (r1 : System + error) (env1 env2 env3 : Env)
          (bytes : list Byte.byte) (v : string),
      postActionCookieSecret (ch w) = None ->
      System_GetByName SystemPostActionCookieSecretKey (env w) = (r1, env1) ->
      yieldsNoSecret json_Unmarshal_secret r1 = true ->
      rand_Read 32 env1 = (inl bytes, env2) ->
      json_Marshal_secret {| Secret := Some bytes |} = inl v ->
      System_Save {| Name := SystemPostActionCookieSecretKey; Value := v |} env2
        = (None, env3) ->
      exists w',
        ensurePostActionCookieSecret w = (Done tt, w')
        /\ PostActionCookieSecret w' = Some bytes
        /\ newEvents w w' =
             [EvGetByName SystemPostActionCookieSecretKey;
              EvRandRead 32;
              EvSave {| Name := SystemPostActionCookieSecretKey; Value := v |}])
  /\
  (forall (w : World Env) (r1 : System + error) (env1 env2 env3 : Env)
          (newECDSAKey : ecdsa_PrivateKey) (v : string),
      AsymmetricSigningKey w = None ->
      System_GetByName SystemAsymmetricSigningKeyKey (env w) = (r1, env1) ->
      yieldsNoSecret json_Unmarshal_key r1 = true ->
      ecdsa_GenerateKey P256 env1 = (inl newECDSAKey, env2) ->
      json_Marshal_key (newSigningKeyRecord newECDSAKey) = inl v ->
      System_Save {| Name := SystemAsymmetricSigningKeyKey; Value := v |} env2
        = (None, env3) ->
      exists w',
        ensureAsymmetricSigningKey w = (Done tt, w')
        /\ AsymmetricSigningKey w' = Some newECDSAKey
        /\ List.filter isGetByName (newEvents w w')
           = [EvGetByName SystemAsymmetricSigningKeyKey]
        /\ List.filter isSave (newEvents w w')
           = [EvSave {| Name := SystemAsymmetricSigningKeyKey; Value := v |}]).
Proof.
  split.
  - intros w r1 env1 env2 env3 bytes v Hc H1 Hn Hrd Hm Hs.
    unfold ensurePostActionCookieSecret. run. rewrite Hc. simpl. rewrite H1. simpl.
    pose proof (first_read_yields_nothing (Env := Env) _ _ Hn) as E1. unfold ret in E1.
    rewrite E1. simpl. rewrite Hrd. simpl. rewrite Hm. simpl. rewrite Hs. simpl.
    eexists. split; [reflexivity|]. split; [reflexivity|]. now events.
  - intros w r1 env1 env2 env3 newECDSAKey v Hc H1 Hn Hg Hm Hs.
    unfold ensureAsymmetricSigningKey. run. rewrite Hc. simpl. rewrite H1. simpl.
    pose proof (first_read_yields_nothing (Env := Env) _ _ Hn) as E1. unfold ret in E1.
    rewrite E1. simpl. rewrite Hg. simpl. rewrite Hm. simpl. rewrite Hs. simpl.
    pose proof (ecdsa_GenerateKey_coordinates _ _ _ _ Hg) as Hco.
    match goal with
    | |- context [regenerateClientConfig ?w1] =>
        destruct (regenerateClientConfig_run w1)
          as (w2 & R2 & _ & _ & Hkey & _ & _ & Htrace)
    end.
    destruct newECDSAKey as [[[] [x|] [y|]] d]; try discriminate Hco.
    rewrite R2. simpl in *.
    exists w2. split; [reflexivity|].
    split; [unfold AsymmetricSigningKey; rewrite Hkey; reflexivity|].
    match type of Htrace with
    | context [if ?c then _ else _] => destruct c; simpl in Htrace
    end;
      erewrite newEvents_app by (rewrite Htrace; solve_trace); split; reflexivity.
Qed.

(** X7: once [ensureAsymmetricSigningKey] has returned nil a signing key is
    cached, and calling it again returns nil at once: the world is left as it
    is and no call is made. *)
Theorem ensureAsymmetricSigningKey_settles (w w' : World Env) :
  ensureAsymmetricSigningKey w = (Done tt, w') ->
  (exists key, AsymmetricSigningKey w' = Some key)
  /\ ensureAsymmetricSigningKey w' = (Done tt, w')
  /\ newEvents w' (snd (ensureAsymmetricSigningKey w')) = [].
Proof.
  intros R.
  assert (K : exists key, asymmetricSigningKey (ch w') = Some key).
  { revert R. unfold ensureAsymmetricSigningKey, AsymmetricSigningKey. run.
    destruct (asymmetricSigningKey (ch w)) eqn:Hc; simpl; intros R.
    - injection R as <-. eauto.
    - remember (Done tt : res unit) as out eqn:Hout in R.
      paths R; try discriminate; rewrite Hkey; eauto. }
  destruct K as [key Hk].
  assert (Again : ensureAsymmetricSigningKey w' = (Done tt, w')).
  { unfold ensureAsymmetricSigningKey, AsymmetricSigningKey. run.
    rewrite Hk. reflexivity. }
  split; [exists key; exact Hk|]. split; [exact Again|].
  rewrite Again. simpl. now events.
Qed.

(** X8: a call of [ensureAsymmetricSigningKey] that resolves the key publishes
    it: when it returns nil, both client-config projections carry the
    base64 of the DER encoding of the public key of the key now cached, and
    the hash is the one of the full projection. *)
Theorem ensureAsymmetricSigningKey_publishes_public_key (w w' : World Env) :
  AsymmetricSigningKey w = None ->
  ensureAsymmetricSigningKey w = (Done tt, w') ->
  exists key m lm,
    AsymmetricSigningKey w' = Some key
    /\ clientConfig (ch w') = Some m
    /\ limitedClientConfig (ch w') = Some lm
    /\ m !! "AsymmetricSigningPublicKey"
       = Some (base64_EncodeToString (x509_MarshalPKIXPublicKey (PublicKey key)))
    /\ lm !! "AsymmetricSigningPublicKey"
       = Some (base64_EncodeToString (x509_MarshalPKIXPublicKey (PublicKey key)))
    /\ clientConfigHash (ch w') = Some (Sprintf_x (md5_Sum (json_Marshal_map m))).
Proof.
  intros Hc. unfold ensureAsymmetricSigningKey. run. rewrite Hc. simpl. intros R.
  remember (Done tt : res unit) as out eqn:Hout in R.
  paths R; try discriminate;
    do 3 eexists; unfold AsymmetricSigningKey;
    rewrite Hkey, Hcc, Hlc, Hhash; unfold withPublicKey;
    (split; [reflexivity|]); (split; [reflexivity|]); (split; [reflexivity|]);
    (split; [apply lookup_insert_eq|]); (split; [apply lookup_insert_eq|]);
    reflexivity.
Qed.

(** ** The client-config snapshot, entry by entry *)

(** X9: when a signing key with both coordinates is cached,
    [regenerateClientConfig] puts the base64 of the DER encoding of its public
    key under [AsymmetricSigningPublicKey] in both projections. *)
Theorem regenerateClientConfig_injects_public_key (w : World Env)
  (key : ecdsa_PrivateKey) :
  AsymmetricSigningKey w = Some key ->
  hasCoordinates (PublicKey key) = true ->
  exists w' m lm,
    regenerateClientConfig w = (Done tt, w')
    /\ clientConfig (ch w') = Some m
    /\ limitedClientConfig (ch w') = Some lm
    /\ m !! "AsymmetricSigningPublicKey"
       = Some (base64_EncodeToString (x509_MarshalPKIXPublicKey (PublicKey key)))
    /\ lm !! "AsymmetricSigningPublicKey"
       = Some (base64_EncodeToString (x509_MarshalPKIXPublicKey (PublicKey key))).
Proof.
  intros Hk Hco. unfold AsymmetricSigningKey in Hk.
  destruct (regenerateClientConfig_run w)
    as (w' & R & _ & _ & _ & Hcells & _).
  rewrite Hk in R, Hcells. simpl in R, Hcells. rewrite Hco in R, Hcells.
  destruct Hcells as (Hcc & Hlc & _).
  do 3 eexists.
  split; [exact R|]. split; [exact Hcc|]. split; [exact Hlc|].
  split; apply lookup_insert_eq.
Qed.

(** X10: when the generated projection has [EnableCustomTermsOfService] set to
    [true] and the latest terms of service are found, their id is put under
    [CustomTermsOfServiceId] in both projections, whether no signing key is
    cached or one that has its coordinates. *)
Theorem regenerateClientConfig_injects_terms_of_service (w : World Env)
  (termsOfService : TermsOfService) (env1 : Env) :
  usableKey (AsymmetricSigningKey w) = true ->
  mapIndex (GenerateClientConfig (Config_ w) (TelemetryId (srv w)) (srvLicense (srv w)))
           "EnableCustomTermsOfService" = "true" ->
  TermsOfService_GetLatest true (env w) = (inl termsOfService, env1) ->
  exists w' m lm,
    regenerateClientConfig w = (Done tt, w')
    /\ clientConfig (ch w') = Some m
    /\ limitedClientConfig (ch w') = Some lm
    /\ m !! "CustomTermsOfServiceId" = Some (tosId termsOfService)
    /\ lm !! "CustomTermsOfServiceId" = Some (tosId termsOfService).
Proof.
  intros Hu He Hl. unfold AsymmetricSigningKey in Hu.
  destruct (regenerateClientConfig_run w)
    as (w' & R & _ & _ & _ & Hcells & _).
  rewrite Hu in R, Hcells. destruct Hcells as (Hcc & Hlc & _).
  rewrite He, Hl in Hcc, Hlc. simpl in Hcc, Hlc.
  do 3 eexists.
  split; [exact R|]. split; [exact Hcc|]. split; [exact Hlc|].
  unfold withPublicKey.
  destruct (asymmetricSigningKey (ch w)); split;
    rewrite ?lookup_insert_ne by discriminate; apply lookup_insert_eq.
Qed.

(** X11: the lookup of the terms of service is optional.  When the generated
    projection does not have [EnableCustomTermsOfService] set to [true], the
    terms store is not consulted at all; when the lookup fails, the failure
    is dropped and [regenerateClientConfig] goes on as without it.  In both
    cases, with no signing key cached or one that has its coordinates,
    [regenerateClientConfig] returns and [CustomTermsOfServiceId] is left as
    the generators produced it. *)
Theorem regenerateClientConfig_terms_lookup_optional (w : World Env) :
  let generated :=
    GenerateClientConfig (Config_ w) (TelemetryId (srv w)) (srvLicense (srv w)) in
  let limited :=
    GenerateLimitedClientConfig (Config_ w) (TelemetryId (srv w)) (srvLicense (srv w)) in
  usableKey (AsymmetricSigningKey w) = true ->
  (mapIndex generated "EnableCustomTermsOfService" <> "true"
   \/ exists err env1, TermsOfService_GetLatest true (env w) = (inr err, env1)) ->
  exists w' m lm,
    regenerateClientConfig w = (Done tt, w')
    /\ clientConfig (ch w') = Some m
    /\ limitedClientConfig (ch w') = Some lm
    /\ m !! "CustomTermsOfServiceId" = generated !! "CustomTermsOfServiceId"
    /\ lm !! "CustomTermsOfServiceId" = limited !! "CustomTermsOfServiceId"
    /\ (mapIndex generated "EnableCustomTermsOfService" <> "true" ->
        env w' = env w /\ newEvents w w' = []).
Proof.
  intros generated limited Hu Hcase. subst generated limited.
  unfold AsymmetricSigningKey in Hu.
  destruct (regenerateClientConfig_run w)
    as (w' & R & _ & _ & _ & Hcells & Henv & Htrace).
  rewrite Hu in R, Hcells. destruct Hcells as (Hcc & Hlc & _).
  cbv zeta in Hcc, Hlc, Henv, Htrace.
  do 3 eexists.
  split; [exact R|]. split; [exact Hcc|]. split; [exact Hlc|].
  match type of Htrace with
  | context [if ?c then _ else _] => set (enabled := c) in *
  end.
  assert (Hno : forall m : gmap string string,
             withTermsOfService
               (if enabled then Some (fst (TermsOfService_GetLatest true (env w)))
                else None) m = m).
  { intros m. destruct Hcase as [Hne|(err & env1 & Hl)].
    - subst enabled.
      match goal with
      | |- context [String.eqb ?a ?b] => destruct (String.eqb_spec a b)
      end; [contradiction | reflexivity].
    - rewrite Hl. destruct enabled; reflexivity. }
  rewrite !Hno. unfold withPublicKey.
  split; [|split].
  - destruct (asymmetricSigningKey (ch w));
      rewrite ?lookup_insert_ne by discriminate; reflexivity.
  - destruct (asymmetricSigningKey (ch w));
      rewrite ?lookup_insert_ne by discriminate; reflexivity.
  - intros Hne. subst enabled.
    match type of Htrace with
    | context [String.eqb ?a ?b] => destruct (String.eqb_spec a b)
    end; [contradiction|].
    split; [exact Henv|]. apply newEvents_app. exact Htrace.
Qed.


Lemma hexDigit_isHexDigit (n : N) : isHexDigit (hexDigit n) = true.
Proof.
  destruct n as [|p]; [reflexivity|].
  do 4 (try destruct p as [p|p|]; try reflexivity).
Qed.

Lemma Sprintf_x_format (bs : list Byte.byte) :
  String.length (Sprintf_x bs) = (2 * length bs)%nat
  /\ forallb isHexDigit (list_ascii_of_string (Sprintf_x bs)) = true.
Proof.
  induction bs as [|b bs [IHl IHd]]; [split; reflexivity|].
  split.
  - cbn [Sprintf_x String.length length]. rewrite IHl. lia.
  - cbn [Sprintf_x list_ascii_of_string forallb].
    rewrite !hexDigit_isHexDigit, IHd. reflexivity.
Qed.

(** X13: the hash a regeneration stores is made of lower-case hexadecimal
    digits, two for each byte of the digest of the serialized projection. *)
Theorem regenerateClientConfig_hash_format (w w' : World Env) :
  regenerateClientConfig w = (Done tt, w') ->
  exists m h,
    clientConfig (ch w') = Some m
    /\ clientConfigHash (ch w') = Some h
    /\ String.length h = (2 * length (md5_Sum (json_Marshal_map m)))%nat
    /\ forallb isHexDigit (list_ascii_of_string h) = true.
Proof.
  intros R'.
  destruct (regenerateClientConfig_run w)
    as (w1 & R & _ & _ & _ & Hcells & _).
  rewrite R in R'.
  destruct (usableKey (asymmetricSigningKey (ch w))); [|discriminate].
  injection R' as <-. destruct Hcells as (Hcc & _ & Hh).
  do 2 eexists.
  split; [exact Hcc|]. split; [exact Hh|].
  apply Sprintf_x_format.
Qed.

(** ** The configuration service, further *)

Lemma UpdateConfig_run (f : Config -> Config) (w : World Env)
  (r : Config * Config + error) (st : Store) (fired : list Event) :
  Store_IsReadOnly (configStore (srv w)) = false ->
  Store_Set (f (Config_ w)) (configStore (srv w)) = (r, st, fired) ->
  exists w',
    UpdateConfig f w = (Done tt, w')
    /\ configStore (srv w') = st
    /\ trace w' = trace w ++ EvMutator (Config_ w) :: EvStoreSet (f (Config_ w)) :: fired
                    ++ match r with
                       | inr _ => [EvLog "error" "Failed to update config"]
                       | inl _ => []
                       end.
Proof.
  intros RO E. unfold UpdateConfig. run. rewrite RO. unfold Clone.
  match goal with
  | |- context [configWrapper_Set ?c ?w1] =>
      rewrite (configWrapper_Set_run c w1 r st fired E)
  end.
  destruct r as [[o n]|err]; run;
    (eexists; split; [reflexivity|]; simpl; split; [reflexivity|]);
    repeat rewrite <- app_assoc; simpl; rewrite ?app_nil_r; reflexivity.
Qed.

(** X14: [UpdateConfig] never reports to its caller and reaches neither the
    cluster nor the metrics subsystem: on every store and for every mutator
    it returns normally, the active document afterwards is either the old one
    or the mutated clone, and no [ConfigChanged], [Register],
    [SetupMetricsServer] or [StopMetricsServer] is called. *)
Theorem UpdateConfig_is_local (f : Config -> Config) (w : World Env) :
  exists w',
    UpdateConfig f w = (Done tt, w')
    /\ (Config_ w' = Config_ w \/ Config_ w' = f (Config_ w))
    /\ List.filter isConfigChanged (newEvents w w') = []
    /\ List.filter isMetricsEvent (newEvents w w') = [].
Proof.
  destruct (Store_IsReadOnly (configStore (srv w))) eqn:RO.
  - exists w. split; [unfold UpdateConfig; run; rewrite RO; reflexivity|].
    split; [auto|]. erewrite newEvents_app by solve_trace. split; reflexivity.
  - destruct (Store_Set (f (Config_ w)) (configStore (srv w)))
      as [[r st] fired] eqn:E.
    destruct (UpdateConfig_run f w r st fired RO E) as (w' & R & Hst & Htr).
    exists w'. split; [exact R|].
    rewrite (newEvents_app _ _ _ Htr). unfold Config_ at 1 3. rewrite Hst.
    destruct r as [[o n]|err].
    + destruct (Store_Set_success _ _ _ _ _ _ E) as (_ & _ & Hg & ->).
      split; [right; exact Hg|]. simpl.
      rewrite !List.filter_app, filter_listeners_cluster, filter_listeners_metrics.
      split; reflexivity.
    + destruct (Store_Set_failure _ _ _ _ _ E) as [-> ->].
      split; [left; reflexivity|]. split; reflexivity.
Qed.

(** X15: on a writable store, when the store's [Set] accepts the mutated clone,
    [UpdateConfig] has installed it: the mutator is handed the active
    document, its result is what is passed to [Set] and what [Config] returns
    afterwards, and nothing is logged. *)
Theorem UpdateConfig_installs_mutated_clone (f : Config -> Config) (w : World Env)
  (oldCfg newCfg : Config) (st : Store) (fired : list Event) :
  Store_IsReadOnly (configStore (srv w)) = false ->
  Store_Set (f (Config_ w)) (configStore (srv w)) = (inl (oldCfg, newCfg), st, fired) ->
  exists w',
    UpdateConfig f w = (Done tt, w')
    /\ Config_ w' = f (Config_ w)
    /\ newEvents w w' = EvMutator (Config_ w) :: EvStoreSet (f (Config_ w)) :: fired.
Proof.
  intros RO E.
  destruct (UpdateConfig_run f w _ _ _ RO E) as (w' & R & Hst & Htr).
  destruct (Store_Set_success _ _ _ _ _ _ E) as (_ & _ & Hg & _).
  exists w'. split; [exact R|].
  split; [unfold Config_ at 1; rewrite Hst; exact Hg|].
  apply newEvents_app. rewrite Htr, app_nil_r. reflexivity.
Qed.

(** X16: on a writable store, when the store's [Set] refuses the mutated
    clone, [UpdateConfig] logs [Failed to update config] and returns
    normally: the error does not reach the caller, and the active document
    stays. *)
Theorem UpdateConfig_logs_Set_failure (f : Config -> Config) (w : World Env)
  (err : error) (st : Store) (fired : list Event) :
  Store_IsReadOnly (configStore (srv w)) = false ->
  Store_Set (f (Config_ w)) (configStore (srv w)) = (inr err, st, fired) ->
  exists w',
    UpdateConfig f w = (Done tt, w')
    /\ Config_ w' = Config_ w
    /\ newEvents w w' =
         [EvMutator (Config_ w); EvStoreSet (f (Config_ w));
          EvLog "error" "Failed to update config"].
Proof.
  intros RO E.
  destruct (UpdateConfig_run f w _ _ _ RO E) as (w' & R & Hst & Htr).
  destruct (Store_Set_failure _ _ _ _ _ E) as [-> ->].
  exists w'. split; [exact R|].
  split; [unfold Config_ at 1; rewrite Hst; reflexivity|].
  apply newEvents_app. rewrite Htr. reflexivity.
Qed.

(** X17: [SaveConfig] always returns, and its triple has one of two shapes:
    an error with both documents nil, or no error with the previously active
    document as old and the submitted document, now active, as new. *)
Theorem SaveConfig_result_shape (newCfg : Config) (send : bool) (w w' : World Env)
  (out : res (option Config * option Config * option AppError)) :
  SaveConfig newCfg send w = (out, w') ->
  (exists appErr, out = Done (None, None, Some appErr))
  \/ (out = Done (Some (Config_ w), Some newCfg, None) /\ Config_ w' = newCfg).
Proof.
  intros R.
  destruct (Store_Set newCfg (configStore (srv w)))
    as [[[[oldCfg newCfg']|err] st] fired] eqn:E.
  - destruct (SaveConfig_run_success newCfg send w _ _ _ _ E) as (w1 & R1 & Hst & _).
    rewrite R1 in R. injection R as <- <-.
    destruct (Store_Set_success _ _ _ _ _ _ E) as (-> & -> & Hg & _).
    destruct (clusterAnswer w st (Store_Get (configStore (srv w))) newCfg send);
      [left; eauto|].
    right. split; [reflexivity|]. unfold Config_. now rewrite Hst.
  - destruct (SaveConfig_run_failure newCfg send w _ _ _ E) as (w1 & R1 & _).
    rewrite R1 in R. injection R as <- <-. left. eauto.
Qed.

(** X18: [SaveConfig] tells the listeners and toggles the metrics subsystem
    before it notifies the cluster, so both have happened when the
    notification fails: the calls after a successful [Set] are, in order,
    the listeners, the metrics toggle, and [ConfigChanged]. *)
Theorem SaveConfig_notify_failure_after_toggle (newCfg : Config) (send : bool)
  (w : World Env) (oldCfg newCfg' : Config) (st : Store) (fired : list Event)
  (cluster : ClusterInterface) (err : AppError) :
  Store_Set newCfg (configStore (srv w)) = (inl (oldCfg, newCfg'), st, fired) ->
  Cluster (srv w) = Some cluster ->
  ConfigChanged cluster (Store_RemoveEnvironmentOverrides st oldCfg)
                (Store_RemoveEnvironmentOverrides st newCfg') send = Some err ->
  exists w',
    SaveConfig newCfg send w = (Done (None, None, Some err), w')
    /\ newEvents w w' =
         EvStoreSet newCfg
           :: map (fun id => EvListener id (Config_ w) newCfg)
                  (storeListeners (configStore (srv w)))
           ++ (if startMetrics (srv w) && Enable (cfgMetricsSettings newCfg)
               then match Metrics (srv w) with
                    | Some _ => [EvMetricsRegister; EvSetupMetricsServer]
                    | None => [EvSetupMetricsServer]
                    end
               else [EvStopMetricsServer])
           ++ [EvConfigChanged (Store_RemoveEnvironmentOverrides st oldCfg)
                               (Store_RemoveEnvironmentOverrides st newCfg') send].
Proof.
  intros E Hc Hn.
  destruct (SaveConfig_run_success newCfg send w _ _ _ _ E) as (w' & R & _ & Htr).
  destruct (Store_Set_success _ _ _ _ _ _ E) as (-> & -> & _ & ->).
  unfold clusterAnswer in R. rewrite Hc, Hn in R.
  exists w'. split; [exact R|].
  apply newEvents_app. rewrite Htr. unfold clusterCalls, metricsCalls. rewrite Hc.
  reflexivity.
Qed.

End MoreProperties.

(** ** Message export, further *)

(** X19: [HandleMessageExportConfig] never moves a start time that is already
    set: a document with export enabled and a non-zero [ExportFromTimestamp]
    comes back unchanged, whatever the active document and the clock. *)
Theorem HandleMessageExportConfig_keeps_start_time (now : Z) (cfg appCfg : Config) :
  EnableExport (cfgMessageExportSettings cfg) = true ->
  ExportFromTimestamp (cfgMessageExportSettings cfg) <> 0 ->
  HandleMessageExportConfig now cfg appCfg = cfg.
Proof.
  intros He Ht. unfold HandleMessageExportConfig. rewrite He.
  destruct (Z.eqb_spec (ExportFromTimestamp (cfgMessageExportSettings cfg)) 0);
    [contradiction|].
  simpl. destruct (negb _); reflexivity.
Qed.

(** X20: [HandleMessageExportConfig] is stable under repetition: applied again
    against the same active document, at a later reading of the clock, it
    changes nothing more, provided the first reading of the clock was not
    0. *)
Theorem HandleMessageExportConfig_idempotent (now later : Z) (cfg appCfg : Config) :
  now <> 0 ->
  HandleMessageExportConfig later (HandleMessageExportConfig now cfg appCfg) appCfg
  = HandleMessageExportConfig now cfg appCfg.
Proof.
  intros Hnow.
  destruct cfg as [ss ms [en ts] other], appCfg as [ss' ms' [en' ts'] other'].
  unfold HandleMessageExportConfig, setExportFromTimestamp. simpl.
  destruct en, en'; simpl; try reflexivity.
  destruct (Z.eqb_spec ts 0); simpl.
  - destruct (Z.eqb_spec now 0); [contradiction | reflexivity].
  - destruct (Z.eqb_spec ts 0); [contradiction | reflexivity].
Qed.

(** ** Computed client configuration and installation records *)

Section ComputedProperties.

Context {Env : Type} {ext : External Env} {lib : Library} {qry : ServerQueries Env}.

Ltac run :=
  unfold bind, get, ret, emit, emitAll, setConfigStore, call, fail, panic, query,
    modifyChannels, setChannels, mlog_Warn, mlog_Error; simpl.

(** The copying loop copies. *)
Lemma copyMap_id (m : gmap string string) : copyMap m = m.
Proof. apply (list_to_map_to_list m). Qed.

(** X21: [ClientConfigWithComputed] answers with a copy of the snapshot in
    which the four computed entries are set, over whatever the snapshot held
    under those names: [NoAccounts], [MaxPostSize] and [UpgradedFromTE] are
    the formatted answers of the server, [InstallationDate] is the recorded
    date in decimal or the empty string when there is none; every other entry
    is the one of the snapshot, and the cached snapshot itself is left as it
    is. *)
Theorem ClientConfigWithComputed_entries (w : World Env) (snapshot : gmap string string) :
  clientConfig (ch w) = Some snapshot ->
  let q1 := IsFirstUserAccount (env w) in
  let q2 := MaxPostSize (snd q1) in
  let q3 := isUpgradedFromTE (snd q2) in
  let q4 := getSystemInstallDate (snd q3) in
  exists respCfg w',
    ClientConfigWithComputed w = (Done respCfg, w')
    /\ ch w' = ch w
    /\ respCfg !! "NoAccounts" = Some (strconv_FormatBool (fst q1))
    /\ respCfg !! "MaxPostSize" = Some (strconv_Itoa (fst q2))
    /\ respCfg !! "UpgradedFromTE" = Some (strconv_FormatBool (fst q3))
    /\ respCfg !! "InstallationDate"
       = Some (match fst q4 with
               | inl installationDate => strconv_FormatInt installationDate
               | inr _ => ""
               end)
    /\ forall k : string,
         k <> "NoAccounts" -> k <> "MaxPostSize" -> k <> "UpgradedFromTE" ->
         k <> "InstallationDate" ->
         respCfg !! k = snapshot !! k.
Proof.
  intros Hs q1 q2 q3 q4. subst q1 q2 q3 q4.
  unfold ClientConfigWithComputed, ClientConfig. run. rewrite Hs. simpl.
  rewrite copyMap_id.
  destruct (IsFirstUserAccount (env w)) as [b1 e1]; simpl.
  destruct (MaxPostSize e1) as [n2 e2]; simpl.
  destruct (isUpgradedFromTE e2) as [b3 e3]; simpl.
  destruct (getSystemInstallDate e3) as [[d|err] e4]; simpl;
    do 2 eexists; (split; [reflexivity|]); (split; [reflexivity|]);
    repeat split;
    try (intros k H1 H2 H3 H4);
    rewrite ?lookup_insert_eq;
    repeat (rewrite lookup_insert_ne by congruence; rewrite ?lookup_insert_eq);
    reflexivity.
Qed.

(** X22: [LimitedClientConfigWithComputed] answers with a copy of the limited
    snapshot in which [NoAccounts] is set to the formatted answer of the
    server; every other entry is the one of the limited snapshot. *)
Theorem LimitedClientConfigWithComputed_entries (w : World Env)
  (snapshot : gmap string string) :
  limitedClientConfig (ch w) = Some snapshot ->
  exists respCfg w',
    LimitedClientConfigWithComputed w = (Done respCfg, w')
    /\ ch w' = ch w
    /\ respCfg !! "NoAccounts"
       = Some (strconv_FormatBool (fst (IsFirstUserAccount (env w))))
    /\ forall k : string, k <> "NoAccounts" -> respCfg !! k = snapshot !! k.
Proof.
  intros Hs.
  unfold LimitedClientConfigWithComputed, LimitedClientConfig. run. rewrite Hs. simpl.
  rewrite copyMap_id.
  destruct (IsFirstUserAccount (env w)) as [b1 e1]; simpl.
  do 2 eexists. split; [reflexivity|]. split; [reflexivity|].
  split; [apply lookup_insert_eq|].
  intros k Hk. now rewrite lookup_insert_ne by congruence.
Qed.

(** X23: the computed configurations need a snapshot.  Before the first
    [regenerateClientConfig] both panic, without asking the server anything;
    after any [regenerateClientConfig] both return a map. *)
Theorem computed_config_needs_snapshot (w : World Env) :
  (clientConfig (ch w) = None -> ClientConfigWithComputed w = (Panic, w))
  /\ (limitedClientConfig (ch w) = None ->
      LimitedClientConfigWithComputed w = (Panic, w))
  /\ (forall w1, regenerateClientConfig w = (Done tt, w1) ->
        (exists respCfg w2, ClientConfigWithComputed w1 = (Done respCfg, w2))
        /\ (exists respCfg w2, LimitedClientConfigWithComputed w1 = (Done respCfg, w2))).
Proof.
  split; [|split].
  - intros Hn. unfold ClientConfigWithComputed, ClientConfig. run. now rewrite Hn.
  - intros Hn. unfold LimitedClientConfigWithComputed, LimitedClientConfig. run.
    now rewrite Hn.
  - intros w1 R.
    destruct (regenerateClientConfig_run w) as (w' & R' & _ & _ & _ & Hcells & _).
    rewrite R' in R.
    destruct (usableKey (asymmetricSigningKey (ch w))); [|discriminate].
    injection R as <-. destruct Hcells as (Hcc & Hlc & _).
    split.
    + unfold ClientConfigWithComputed, ClientConfig. run. rewrite Hcc. simpl.
      destruct (IsFirstUserAccount (env w')) as [b1 e1]; simpl.
      destruct (MaxPostSize e1) as [n2 e2]; simpl.
      destruct (isUpgradedFromTE e2) as [b3 e3]; simpl.
      destruct (getSystemInstallDate e3) as [[d|err] e4]; simpl; eauto.
    + unfold LimitedClientConfigWithComputed, LimitedClientConfig. run.
      rewrite Hlc. simpl.
      destruct (IsFirstUserAccount (env w')) as [b1 e1]; simpl. eauto.
Qed.

(** X24: a recorded date is kept.  When the installation date (or the
    timestamp of the first run) can be read, the operation returns nil after
    that one read: nothing is written and the clock is not consulted. *)
Theorem ensure_recorded_dates_are_kept (w : World Env) (date : Z) (env1 : Env) :
  (getSystemInstallDate (env w) = (inl date, env1) ->
   ensureInstallationDate w
   = (Done tt, {| srv := srv w; ch := ch w; env := env1; trace := trace w |}))
  /\
  (getFirstServerRunTimestamp (env w) = (inl date, env1) ->
   ensureFirstServerRunTimestamp w
   = (Done tt, {| srv := srv w; ch := ch w; env := env1; trace := trace w |})).
Proof.
  split; intros Hr.
  - unfold ensureInstallationDate. run. rewrite Hr. reflexivity.
  - unfold ensureFirstServerRunTimestamp. run. rewrite Hr. reflexivity.
Qed.

(** X25: when no installation date is recorded and one can be inferred that is
    positive, that date is what [ensureInstallationDate] writes, in decimal,
    under [InstallationDate]; the clock is not consulted, and the operation
    fails exactly when the write does. *)
Theorem ensureInstallationDate_records_inferred_date (w : World Env)
  (appErr : AppError) (installDate : Z) (env1 env2 env3 : Env) (saved : option error) :
  getSystemInstallDate (env w) = (inr appErr, env1) ->
  User_InferSystemInstallDate env1 = (inl installDate, env2) ->
  0 < installDate ->
  System_SaveOrUpdate {| Name := SystemInstallationDateKey;
                         Value := strconv_FormatInt installDate |} env2
    = (saved, env3) ->
  ensureInstallationDate w
  = (match saved with Some err => Fail err | None => Done tt end,
     {| srv := srv w; ch := ch w; env := env3; trace := trace w |}).
Proof.
  intros Hr Hi Hpos Hs.
  unfold ensureInstallationDate. run. rewrite Hr. simpl. rewrite Hi. simpl.
  destruct (Z.ltb_spec 0 installDate) as [_|Hle]; [|lia]. simpl.
  rewrite Hs. destruct saved; reflexivity.
Qed.

(** X26: when no installation date is recorded and none can be inferred, the
    inference failing or giving a date that is not positive, that is no
    error: [ensureInstallationDate] writes the current time instead, and
    fails exactly when the write does. *)
Theorem ensureInstallationDate_falls_back_to_clock (w : World Env)
  (appErr : AppError) (inferred : Z + error) (now : Z) (env1 env2 env3 env4 : Env)
  (saved : option error) :
  getSystemInstallDate (env w) = (inr appErr, env1) ->
  User_InferSystemInstallDate env1 = (inferred, env2) ->
  match inferred with inl installDate => installDate <= 0 | inr _ => True end ->
  MillisNow env2 = (now, env3) ->
  System_SaveOrUpdate {| Name := SystemInstallationDateKey;
                         Value := strconv_FormatInt now |} env3
    = (saved, env4) ->
  ensureInstallationDate w
  = (match saved with Some err => Fail err | None => Done tt end,
     {| srv := srv w; ch := ch w; env := env4; trace := trace w |}).
Proof.
  intros Hr Hi Hbad Hn Hs.
  unfold ensureInstallationDate. run. rewrite Hr. simpl. rewrite Hi. simpl.
  destruct inferred as [installDate|err]; simpl.
  - destruct (Z.ltb_spec 0 installDate) as [Hlt|_]; [lia|]. simpl.
    rewrite Hn. simpl. rewrite Hs. destruct saved; reflexivity.
  - rewrite Hn. simpl. rewrite Hs. destruct saved; reflexivity.
Qed.

End ComputedProperties.

(** * The further properties on the concrete node *)

Import SampleQueries.

(** A run of [ensurePostActionCookieSecret] that fails on a corrupt record, a
    run of [ensureAsymmetricSigningKey] that fails on a record naming P-384,
    and one that panics on a record on P-256 without coordinates. *)
Lemma ensure_failure_keeps_caches_witness :
  (let w := node false false None cachedKeyChannels
                 (envWith SystemPostActionCookieSecretKey "corrupt") in
   fst (ensurePostActionCookieSecret w) = Fail (errorString "invalid character")
   /\ ch (snd (ensurePostActionCookieSecret w)) = ch w)
  /\
  (let w := node false false None emptyChannels
                 (envWith SystemAsymmetricSigningKeyKey "P-384") in
   fst (ensureAsymmetricSigningKey w) = Fail (errorString "unknown curve: P-384")
   /\ ch (snd (ensureAsymmetricSigningKey w)) = ch w)
  /\
  (let w := node false false None emptyChannels
                 (envWith SystemAsymmetricSigningKeyKey "P-256 only") in
   fst (ensureAsymmetricSigningKey w) = Panic
   /\ clientConfig (ch (snd (ensureAsymmetricSigningKey w))) = clientConfig (ch w)
   /\ clientConfigHash (ch (snd (ensureAsymmetricSigningKey w)))
      = clientConfigHash (ch w)).
Proof.
  split; [|split]; intros w; (split; [reflexivity|]).
  - apply (proj1 ensure_failure_keeps_caches w
             (snd (ensurePostActionCookieSecret w))
             (fst (ensurePostActionCookieSecret w))).
    + apply surjective_pairing.
    + discriminate.
  - apply (proj1 (proj2 (proj2 ensure_failure_keeps_caches w
                           (snd (ensureAsymmetricSigningKey w))
                           (fst (ensureAsymmetricSigningKey w))
                           (surjective_pairing _)))
             (errorString "unknown curve: P-384")).
    reflexivity.
  - assert (Hp : fst (ensureAsymmetricSigningKey w) = Panic) by reflexivity.
    destruct (proj2 (proj2 (proj2 ensure_failure_keeps_caches w
                              (snd (ensureAsymmetricSigningKey w))
                              (fst (ensureAsymmetricSigningKey w))
                              (surjective_pairing _))) Hp)
      as (_ & Hcc & _ & Hh).
    split; [exact Hcc | exact Hh].
Defined.

(** A run of [ensureAsymmetricSigningKey] that loses the race. *)
Lemma ensure_store_traffic_bounded_witness :
  let w := node false false None emptyChannels
                (racedEnv SystemAsymmetricSigningKeyKey "P-256") in
  (length (List.filter isGetByName (newEvents w (snd (ensureAsymmetricSigningKey w))))
   <= 2)%nat
  /\ (length (List.filter isSave (newEvents w (snd (ensureAsymmetricSigningKey w))))
      <= 1)%nat.
Proof.
  intros w.
  destruct (proj2 ensure_store_traffic_bounded w
              (snd (ensureAsymmetricSigningKey w)) (fst (ensureAsymmetricSigningKey w))
              (surjective_pairing _)) as (Hr & Hs & _).
  split; assumption.
Defined.

(** A run of [ensurePostActionCookieSecret] on an empty store. *)
Lemma ensure_saves_only_fresh_secret_witness :
  let w := node false false None emptyChannels emptyEnv in
  let sys := {| Name := SystemPostActionCookieSecretKey;
                Value := string_of_list_byte (repeat Byte.x2a 32) |} in
  In (EvSave sys) (newEvents w (snd (ensurePostActionCookieSecret w)))
  /\ exists bytes env2,
       rand_Read 32 (snd (System_GetByName SystemPostActionCookieSecretKey (env w)))
         = (inl bytes, env2)
       /\ json_Marshal_secret {| Secret := Some bytes |} = inl (Value sys).
Proof.
  intros w sys.
  assert (Hin : In (EvSave sys) (newEvents w (snd (ensurePostActionCookieSecret w)))).
  { right. right. left. reflexivity. }
  split; [exact Hin|].
  destruct (proj1 ensure_saves_only_fresh_secret w
              (snd (ensurePostActionCookieSecret w)) (fst (ensurePostActionCookieSecret w))
              sys (surjective_pairing _) Hin) as (_ & Hm & _).
  exact Hm.
Defined.


(** Both operations on a store whose record does not decode. *)
Lemma ensure_corrupt_record_is_error_witness :
  (let w := node false false None emptyChannels
                 (envWith SystemPostActionCookieSecretKey "corrupt") in
   exists w',
     ensurePostActionCookieSecret w = (Fail (errorString "invalid character"), w')
     /\ ch w' = ch w)
  /\
  (let w := node false false None emptyChannels
                 (envWith SystemAsymmetricSigningKeyKey "corrupt") in
   exists w',
     ensureAsymmetricSigningKey w = (Fail (errorString "invalid character"), w')
     /\ ch w' = ch w).
Proof.
  split; intros w.
  - edestruct (proj1 ensure_corrupt_record_is_error w)
      as (w' & R & Hc & _); [reflexivity | reflexivity | reflexivity |].
    exists w'. split; [exact R | exact Hc].
  - edestruct (proj2 ensure_corrupt_record_is_error w)
      as (w' & R & Hc & _); [reflexivity | reflexivity | reflexivity |].
    exists w'. split; [exact R | exact Hc].
Defined.

(** Both operations on an empty store, with no peer. *)
Lemma ensure_generates_and_caches_witness :
  (let w := node false false None emptyChannels emptyEnv in
   exists w',
     ensurePostActionCookieSecret w = (Done tt, w')
     /\ PostActionCookieSecret w' = Some (repeat Byte.x2a 32))
  /\
  (let w := node false false None emptyChannels emptyEnv in
   exists w',
     ensureAsymmetricSigningKey w = (Done tt, w')
     /\ AsymmetricSigningKey w' = Some simKey).
Proof.
  split; intros w.
  - edestruct (proj1 ensure_generates_and_caches w)
      as (w' & R & Hs & _);
      [reflexivity | reflexivity | reflexivity | reflexivity | reflexivity
      | reflexivity |].
    exists w'. split; [exact R | exact Hs].
  - edestruct (proj2 ensure_generates_and_caches w)
      as (w' & R & Hk & _);
      [reflexivity | reflexivity | reflexivity | reflexivity | reflexivity
      | reflexivity |].
    exists w'. split; [exact R | exact Hk].
Defined.

(** [ensureAsymmetricSigningKey] twice on an empty store. *)
Lemma ensureAsymmetricSigningKey_settles_witness :
  let w := node false false None emptyChannels emptyEnv in
  let w' := snd (ensureAsymmetricSigningKey w) in
  fst (ensureAsymmetricSigningKey w) = Done tt
  /\ ensureAsymmetricSigningKey w' = (Done tt, w').
Proof.
  intros w w'. split; [reflexivity|].
  apply (ensureAsymmetricSigningKey_settles w w').
  apply injective_projections; reflexivity.
Defined.

(** The projections after [ensureAsymmetricSigningKey] on an empty store. *)
Lemma ensureAsymmetricSigningKey_publishes_public_key_witness :
  let w := node false false None emptyChannels emptyEnv in
  let w' := snd (ensureAsymmetricSigningKey w) in
  exists key m lm,
    AsymmetricSigningKey w' = Some key
    /\ clientConfig (ch w') = Some m
    /\ limitedClientConfig (ch w') = Some lm
    /\ m !! "AsymmetricSigningPublicKey"
       = Some (base64_EncodeToString (x509_MarshalPKIXPublicKey (PublicKey key)))
    /\ lm !! "AsymmetricSigningPublicKey"
       = Some (base64_EncodeToString (x509_MarshalPKIXPublicKey (PublicKey key)))
    /\ clientConfigHash (ch w') = Some (Sprintf_x (md5_Sum (json_Marshal_map m))).
Proof.
  intros w w'.
  apply (ensureAsymmetricSigningKey_publishes_public_key w w').
  - reflexivity.
  - apply injective_projections; reflexivity.
Defined.

(** [regenerateClientConfig] on a node with a cached key. *)
Lemma regenerateClientConfig_injects_public_key_witness :
  let w := node false false None cachedKeyChannels emptyEnv in
  exists w' m lm,
    regenerateClientConfig w = (Done tt, w')
    /\ clientConfig (ch w') = Some m
    /\ limitedClientConfig (ch w') = Some lm
    /\ m !! "AsymmetricSigningPublicKey" = Some "0"
    /\ lm !! "AsymmetricSigningPublicKey" = Some "0".
Proof.
  intros w.
  apply (regenerateClientConfig_injects_public_key w simKey); reflexivity.
Defined.

(** [regenerateClientConfig] on the node that asks for terms of service. *)
Lemma regenerateClientConfig_injects_terms_of_service_witness :
  exists w' m lm,
    regenerateClientConfig termsNode = (Done tt, w')
    /\ clientConfig (ch w') = Some m
    /\ limitedClientConfig (ch w') = Some lm
    /\ m !! "CustomTermsOfServiceId" = Some "terms-1"
    /\ lm !! "CustomTermsOfServiceId" = Some "terms-1".
Proof.
  apply (regenerateClientConfig_injects_terms_of_service termsNode
           {| tosId := "terms-1" |} (env termsNode)); reflexivity.
Defined.

(** [regenerateClientConfig] on a node whose document does not ask for terms
    of service. *)
Lemma regenerateClientConfig_terms_lookup_optional_witness :
  let w := node false false None emptyChannels emptyEnv in
  exists w' m,
    regenerateClientConfig w = (Done tt, w')
    /\ clientConfig (ch w') = Some m
    /\ m !! "CustomTermsOfServiceId" = None
    /\ newEvents w w' = [].
Proof.
  intros w.
  assert (Hne : mapIndex (GenerateClientConfig (Config_ w) (TelemetryId (srv w))
                            (srvLicense (srv w))) "EnableCustomTermsOfService"
                <> "true") by discriminate.
  destruct (regenerateClientConfig_terms_lookup_optional w eq_refl (or_introl Hne))
    as (w' & m & lm & R & Hm & _ & Hid & _ & Hquiet).
  exists w', m. split; [exact R|]. split; [exact Hm|].
  split; [rewrite Hid; reflexivity | apply (Hquiet Hne)].
Defined.


(** The hash after a regeneration on a node with a cached key. *)
Lemma regenerateClientConfig_hash_format_witness :
  let w := node false false None cachedKeyChannels emptyEnv in
  let w' := snd (regenerateClientConfig w) in
  fst (regenerateClientConfig w) = Done tt
  /\ exists m h,
       clientConfig (ch w') = Some m
       /\ clientConfigHash (ch w') = Some h
       /\ String.length h = (2 * length (md5_Sum (json_Marshal_map m)))%nat
       /\ forallb isHexDigit (list_ascii_of_string h) = true.
Proof.
  intros w w'. split; [reflexivity|].
  apply (regenerateClientConfig_hash_format w w').
  apply injective_projections; reflexivity.
Defined.

(** [UpdateConfig] with a mutator that sets a valid start time. *)
Lemma UpdateConfig_installs_mutated_clone_witness :
  let w := node true false (Some failingCluster) emptyChannels emptyEnv in
  exists w',
    UpdateConfig (setExportFromTimestamp 42) w = (Done tt, w')
    /\ Config_ w' = doc false false 42
    /\ newEvents w w' =
         [EvMutator (doc false false 0); EvStoreSet (doc false false 42);
          EvListener "listener-1" (doc false false 0) (doc false false 42)].
Proof.
  intros w.
  eapply (UpdateConfig_installs_mutated_clone (setExportFromTimestamp 42) w);
    reflexivity.
Defined.

(** [UpdateConfig] with a mutator that sets a negative start time, which the
    validator of the node rejects. *)
Lemma UpdateConfig_logs_Set_failure_witness :
  let w := node true false (Some failingCluster) emptyChannels emptyEnv in
  exists w',
    UpdateConfig (setExportFromTimestamp (-1)) w = (Done tt, w')
    /\ Config_ w' = doc false false 0
    /\ newEvents w w' =
         [EvMutator (doc false false 0); EvStoreSet (doc false false (-1));
          EvLog "error" "Failed to update config"].
Proof.
  intros w.
  eapply (UpdateConfig_logs_Set_failure (setExportFromTimestamp (-1)) w);
    reflexivity.
Defined.

(** A successful [SaveConfig] on a node without a cluster. *)
Lemma SaveConfig_result_shape_witness :
  let w := node true false None emptyChannels emptyEnv in
  let run := SaveConfig (doc true true 7) true w in
  fst run = Done (Some (doc false false 0), Some (doc true true 7), None)
  /\ Config_ (snd run) = doc true true 7.
Proof.
  intros w run.
  destruct (SaveConfig_result_shape (doc true true 7) true w (snd run) (fst run)
              (surjective_pairing _)) as [[appErr Herr]|[Hok Hcfg]].
  - discriminate Herr.
  - split; [exact Hok | exact Hcfg].
Defined.

(** [SaveConfig] on a node whose cluster transport fails. *)
Lemma SaveConfig_notify_failure_after_toggle_witness :
  let w := node true false (Some failingCluster) emptyChannels emptyEnv in
  exists w',
    SaveConfig (doc true false 0) true w
      = (Done (None, None,
               Some (NewAppError "ConfigChanged" "ent.cluster.config_changed.error" "" 500)),
         w')
    /\ List.filter isMetricsEvent (newEvents w w')
       = [EvMetricsRegister; EvSetupMetricsServer].
Proof.
  intros w.
  edestruct (SaveConfig_notify_failure_after_toggle (doc true false 0) true w)
    as (w' & R & Hev); [reflexivity | reflexivity | reflexivity |].
  exists w'. split; [exact R|]. rewrite Hev. reflexivity.
Defined.

(** Export switched on for a document that has a start time. *)
Lemma HandleMessageExportConfig_keeps_start_time_witness :
  HandleMessageExportConfig 1700000000000 (doc false true 99) (doc false false 0)
  = doc false true 99.
Proof.
  apply (HandleMessageExportConfig_keeps_start_time
           1700000000000 (doc false true 99) (doc false false 0));
    [reflexivity | discriminate].
Defined.

(** Export switched on twice, a second apart. *)
Lemma HandleMessageExportConfig_idempotent_witness :
  HandleMessageExportConfig 1700000001000
    (HandleMessageExportConfig 1700000000000 (doc false true 0) (doc false false 0))
    (doc false false 0)
  = HandleMessageExportConfig 1700000000000 (doc false true 0) (doc false false 0).
Proof.
  apply (HandleMessageExportConfig_idempotent 1700000000000 1700000001000
           (doc false true 0) (doc false false 0)).
  discriminate.
Defined.

(** The computed configuration of a node whose snapshot has a stale
    [NoAccounts] entry and no installation date on record. *)
Lemma ClientConfigWithComputed_entries_witness :
  let w := node false false None snapshotChannels emptyEnv in
  exists respCfg w',
    ClientConfigWithComputed w = (Done respCfg, w')
    /\ respCfg !! "NoAccounts" = Some "true"
    /\ respCfg !! "MaxPostSize" = Some "16383"
    /\ respCfg !! "InstallationDate" = Some ""
    /\ respCfg !! "SiteName" = Some "Mattermost".
Proof.
  intros w.
  edestruct (ClientConfigWithComputed_entries w)
    as (respCfg & w' & R & _ & Hn & Hm & _ & Hd & Hrest); [reflexivity|].
  exists respCfg, w'. split; [exact R|]. split; [exact Hn|]. split; [exact Hm|].
  split; [exact Hd|].
  rewrite Hrest by discriminate. reflexivity.
Defined.

Lemma LimitedClientConfigWithComputed_entries_witness :
  let w := node false false None snapshotChannels emptyEnv in
  exists respCfg w',
    LimitedClientConfigWithComputed w = (Done respCfg, w')
    /\ respCfg !! "NoAccounts" = Some "true"
    /\ respCfg !! "SiteName" = Some "Mattermost".
Proof.
  intros w.
  edestruct (LimitedClientConfigWithComputed_entries w)
    as (respCfg & w' & R & _ & Hn & Hrest); [reflexivity|].
  exists respCfg, w'. split; [exact R|]. split; [exact Hn|].
  rewrite Hrest by discriminate. reflexivity.
Defined.

(** The computed configuration before and after the first regeneration. *)
Lemma computed_config_needs_snapshot_witness :
  let w := node false false None emptyChannels emptyEnv in
  ClientConfigWithComputed w = (Panic, w)
  /\ exists respCfg w2,
       ClientConfigWithComputed (snd (regenerateClientConfig w)) = (Done respCfg, w2).
Proof.
  intros w.
  destruct (computed_config_needs_snapshot w) as (Hp & _ & Hafter).
  split; [apply Hp; reflexivity|].
  apply (Hafter (snd (regenerateClientConfig w))).
  apply injective_projections; reflexivity.
Defined.

(** A node with an installation date on record. *)
Lemma ensure_recorded_dates_are_kept_witness :
  let w := node false false None emptyChannels
                (envWith SystemInstallationDateKey "1600000000000") in
  ensureInstallationDate w = (Done tt, w).
Proof.
  intros w.
  apply (proj1 (ensure_recorded_dates_are_kept w 1600000000000 (env w))).
  reflexivity.
Defined.

(** A node without an installation date whose oldest user is on record. *)
Lemma ensureInstallationDate_records_inferred_date_witness :
  let w := node false false None emptyChannels
                (envWith "Users.MinCreateAt" "1500000000000") in
  fst (ensureInstallationDate w) = Done tt
  /\ records (env (snd (ensureInstallationDate w))) !! SystemInstallationDateKey
     = Some "1500000000000".
Proof.
  intros w.
  erewrite (ensureInstallationDate_records_inferred_date w);
    [ | reflexivity | reflexivity | reflexivity | reflexivity ].
  split; reflexivity.
Defined.

(** A node without an installation date and without users. *)
Lemma ensureInstallationDate_falls_back_to_clock_witness :
  let w := node false false None emptyChannels emptyEnv in
  fst (ensureInstallationDate w) = Done tt
  /\ records (env (snd (ensureInstallationDate w))) !! SystemInstallationDateKey
     = Some "1700000000000".
Proof.
  intros w.
  erewrite (ensureInstallationDate_falls_back_to_clock w);
    [ | reflexivity | reflexivity | exact I | reflexivity | reflexivity ].
  split; reflexivity.
Defined.
